(** * rest_requests: a shallow embedding of [src/rest_requests/__init__.py]

    The module issues one HTTP request through an [aiohttp] client session,
    optionally routed through an [aiohttp_socks] proxy connector, and decodes
    a JSON or plain-text response.

    The Python code is embedded as state-passing functions in a small
    state-and-exception monad.  The state (the [World]) holds
    - the live Python objects the code can alias ([dict[str, str]] header
      mappings and JSON bodies), addressed by reference;
    - the network the transport talks to, as an oracle, and the proxy URLs
      [aiohttp_socks] refuses, as another;
    - the trace of every call the module makes into [logging], [aiohttp]
      and [aiohttp_socks], oldest first.

    [aiohttp] and [aiohttp_socks] are not part of the repository.  Their
    objects are records holding exactly the arguments the module passes to
    their constructors; their operations that touch the network ask the
    oracle, and may raise; so may [ProxyConnector.from_url], which parses
    the URL it is given. *)

From Stdlib Require Import ZArith String List.
From stdpp Require Import base gmap strings list.

Open Scope Z_scope.
Open Scope string_scope.
Open Scope list_scope.

(** ** Data model *)

(** [_JSONNode]: [str | int | float | bool | None | dict | list].
    A float is kept as its IEEE-754 binary64 bit pattern; the module never
    computes with it. *)
#[warnings="-register-all"]
Inductive JSONNode : Type :=
| JStr (s : string)
| JInt (z : Z)
| JFloat (bits : Z)
| JBool (b : bool)
| JNull
| JDict (d : gmap string JSONNode)
| JList (l : list JSONNode).

(** [class RequestMethod(Enum)] *)
Inductive RequestMethod : Type :=
| GET | HEAD | POST | PUT | DELETE | OPTIONS | PATCH.

(** [RequestMethod.X.value] *)
Definition value (m : RequestMethod) : string :=
  match m with
  | GET => "get"
  | HEAD => "head"
  | POST => "post"
  | PUT => "put"
  | DELETE => "delete"
  | OPTIONS => "options"
  | PATCH => "patch"
  end.

(** [RequestMethod.X.name] *)
Definition name (m : RequestMethod) : string :=
  match m with
  | GET => "GET"
  | HEAD => "HEAD"
  | POST => "POST"
  | PUT => "PUT"
  | DELETE => "DELETE"
  | OPTIONS => "OPTIONS"
  | PATCH => "PATCH"
  end.

Definition all_methods : list RequestMethod :=
  [GET; HEAD; POST; PUT; DELETE; OPTIONS; PATCH].

(** *** The [aiohttp] and [aiohttp_socks] objects the module builds *)

(** [aiohttp.ClientTimeout]; the module sets [total], [sock_connect] and
    [sock_read] and leaves [connect] at its default [None]. *)
Record ClientTimeout : Type := mkClientTimeout {
  total : option Z;
  connect : option Z;
  sock_read : option Z;
  sock_connect : option Z;
}.

(** [aiohttp_socks.ProxyConnector], only ever built by [from_url]. *)
Inductive Connector : Type :=
| ProxyConnector_from_url (url : string).

(** [aiohttp.ClientSession(timeout=..., **kwargs)]: [connector] is [None]
    unless the keyword is passed. *)
Record ClientSession : Type := mkClientSession {
  session_timeout : ClientTimeout;
  session_connector : option Connector;
}.

(** The verb-specific send operations of a session: [session.get],
    [session.head], ... *)
Inductive SessionMethod : Type :=
| session_get | session_head | session_post | session_put
| session_delete | session_options | session_patch.

(** The attribute name of each send operation. *)
Definition attr_name (f : SessionMethod) : string :=
  match f with
  | session_get => "get"
  | session_head => "head"
  | session_post => "post"
  | session_put => "put"
  | session_delete => "delete"
  | session_options => "options"
  | session_patch => "patch"
  end.

(** The HTTP verb each send operation puts on the wire
    ([aiohttp.hdrs.METH_GET], ...). *)
Definition http_verb (f : SessionMethod) : string :=
  match f with
  | session_get => "GET"
  | session_head => "HEAD"
  | session_post => "POST"
  | session_put => "PUT"
  | session_delete => "DELETE"
  | session_options => "OPTIONS"
  | session_patch => "PATCH"
  end.

(** A bound method [session.get]: the object and the function. *)
Record BoundMethod : Type := mkBoundMethod {
  bm_self : ClientSession;
  bm_func : SessionMethod;
}.

(** Exceptions.  [RuntimeError] is raised by the module itself;
    [ClientResponseError] by [response.raise_for_status()]; [LibraryError]
    stands for any other exception coming out of [aiohttp] or
    [aiohttp_socks] (connection refused, timeout, undecodable body, proxy
    URL that does not parse, ...), which the module lets through
    unchanged.  [InvalidReference] is the model's own: a reference to no live
    object, which Python cannot produce. *)
Inductive Exn : Type :=
| RuntimeError (msg : string)
| ClientResponseError (status : Z) (message : string) (real_url : string)
| LibraryError (what : string)
| InvalidReference.

(** What [await f()] yields: a value or a raised exception. *)
Inductive Outcome (A : Type) : Type :=
| Return (a : A)
| Raise (e : Exn).
Arguments Return {A} a.
Arguments Raise {A} e.

(** [aiohttp.ClientResponse], as far as the module looks at it.
    [content_type] is the attribute the module reads: the media type of the
    response, which [aiohttp] gives without the parameters of the header.
    [resp_json] and [resp_text] are what [await response.json()] and
    [await response.text()] yield: both read the body from the network and
    decode it, and both can raise. *)
Record ClientResponse : Type := mkClientResponse {
  content_type : string;
  status : Z;
  reason : string;
  real_url : string;
  resp_json : Outcome JSONNode;
  resp_text : Outcome string;
}.

(** The return type [str | JSON] of [request]. *)
Inductive Result : Type :=
| RText (s : string)
| RJson (j : JSONNode).

(** ** The world *)

Definition ref := positive.

Inductive LogLevel : Type := DEBUG | INFO.

(** One entry per call out of the module. *)
Inductive Event : Type :=
| EvClientTimeout (t : ClientTimeout)
| EvProxyConnector (url : string)
| EvClientSession (s : ClientSession)
| EvLog (level : LogLevel) (method_name : string) (url : string)
        (headers : gmap string string) (body : JSONNode)
| EvSend (f : BoundMethod) (url : string)
         (headers : gmap string string) (json : JSONNode)
| EvReadJson
| EvReadText
| EvRaiseForStatus
| EvRelease
| EvSessionClose.

(** What the network answers to a request sent through a session. *)
Definition Network : Type :=
  ClientSession -> SessionMethod -> string -> gmap string string -> JSONNode ->
  Outcome ClientResponse.

(** What [ProxyConnector.from_url] raises on a URL, if anything. *)
Definition ProxyErrors : Type := string -> option Exn.

Record World : Type := mkWorld {
  dicts : gmap ref (gmap string string);
  jsons : gmap ref JSONNode;
  network : Network;
  proxy_error : ProxyErrors;
  trace : list Event;
}.

(** ** The monad *)

Definition M (A : Type) : Type := World -> Outcome A * World.

Definition ret {A} (a : A) : M A := fun w => (Return a, w).

Definition bind {A B} (c : M A) (k : A -> M B) : M B :=
  fun w =>
    match c w with
    | (Return a, w') => k a w'
    | (Raise e, w') => (Raise e, w')
    end.

Definition raise {A} (e : Exn) : M A := fun w => (Raise e, w).

#[global] Instance M_ret : MRet M := @ret.
#[global] Instance M_bind : MBind M := fun A B k c => bind c k.

(** Awaiting something outside the module: the world decides what comes
    back. *)
Definition await {A} (f : World -> Outcome A) : M A := fun w => (f w, w).

(** [try: c finally: h] *)
Definition finally {A} (c : M A) (h : M unit) : M A :=
  fun w =>
    match c w with
    | (r, w') =>
        match h w' with
        | (Return _, w'') => (r, w'')
        | (Raise e, w'') => (Raise e, w'')
        end
    end.

(** Appending to the trace. *)
Definition add_events (evs : list Event) (w : World) : World :=
  {| dicts := dicts w; jsons := jsons w;
     network := network w; proxy_error := proxy_error w;
     trace := trace w ++ evs |}.

Definition emit (e : Event) : M unit :=
  fun w => (Return tt, add_events [e] w).

(** Evaluating a dict display or a dict-producing operator: a new object. *)
Definition new_dict (d : gmap string string) : M ref :=
  fun w =>
    let l := fresh (dom (dicts w)) in
    (Return l,
     {| dicts := <[l := d]> (dicts w); jsons := jsons w;
        network := network w; proxy_error := proxy_error w;
        trace := trace w |}).

Definition read_dict (l : ref) : M (gmap string string) :=
  fun w =>
    match dicts w !! l with
    | Some d => (Return d, w)
    | None => (Raise InvalidReference, w)
    end.

Definition read_json (l : ref) : M JSONNode :=
  fun w =>
    match jsons w !! l with
    | Some j => (Return j, w)
    | None => (Raise InvalidReference, w)
    end.

(** [a | b] on dicts: a new dict, the entries of [b] winning. *)
Definition dict_or (a b : ref) : M ref :=
  da ← read_dict a;
  db ← read_dict b;
  new_dict (db ∪ da).

(** [x or {}] where [x : dict | None]: [x] itself when it is a non-empty
    dict, a new empty dict otherwise. *)
Definition or_empty_dict (x : option ref) : M ref :=
  match x with
  | None => new_dict ∅
  | Some l =>
      d ← read_dict l;
      if bool_decide (d = ∅) then new_dict ∅ else mret l
  end.

(** [async with enter as x: body]: [leave] runs on every way out of [body],
    and not at all when [enter] raises. *)
Definition async_with {R A} (enter : M R) (leave : M unit) (body : R -> M A)
  : M A :=
  x ← enter;
  finally (body x) leave.

(** *** [logging], [aiohttp] and [aiohttp_socks] *)

(** [_logger.debug(f"...")] and [_logger.info(f"...")]: both messages are
    built from [method.name], [url], [headers] and [body], which the
    f-string reads when the call is made. *)
Definition log (level : LogLevel) (m : RequestMethod) (url : string)
    (headers body : ref) : M unit :=
  h ← read_dict headers;
  j ← read_json body;
  emit (EvLog level (name m) url h j).

(** [aiohttp.ClientTimeout(total=..., sock_connect=..., sock_read=...)] *)
Definition ClientTimeout_new (total sock_connect sock_read : option Z)
  : M ClientTimeout :=
  let t := {| total := total; connect := None;
              sock_read := sock_read; sock_connect := sock_connect |} in
  emit (EvClientTimeout t);;
  mret t.

(** [ProxyConnector.from_url(url)]: the connector for the URL, or the
    exception the parser raises on it. *)
Definition from_url (url : string) : M Connector :=
  emit (EvProxyConnector url);;
  await (fun w =>
           match proxy_error w url with
           | Some e => Raise e
           | None => Return (ProxyConnector_from_url url)
           end).

(** [aiohttp.ClientSession(timeout=timeout, **kwargs)] *)
Definition ClientSession_new (timeout : ClientTimeout)
    (kwargs : gmap string Connector) : M ClientSession :=
  let s := {| session_timeout := timeout;
              session_connector := kwargs !! "connector" |} in
  emit (EvClientSession s);;
  mret s.

(** [request_func(url=url, headers=headers, json=body)], entered: the
    session serialises the headers and the body it is handed and sends the
    request; the network answers with a response or the send raises. *)
Definition send (f : BoundMethod) (url : string) (headers body : ref)
  : M ClientResponse :=
  h ← read_dict headers;
  j ← read_json body;
  emit (EvSend f url h j);;
  await (fun w => network w (bm_self f) (bm_func f) url h j).

(** [await response.json()] *)
Definition json (r : ClientResponse) : M JSONNode :=
  emit EvReadJson;;
  await (fun _ => resp_json r).

(** [await response.text()] *)
Definition text (r : ClientResponse) : M string :=
  emit EvReadText;;
  await (fun _ => resp_text r).

(** [response.ok]: [400 > self.status]. *)
Definition ok (r : ClientResponse) : bool := (status r <? 400)%Z.

(** [response.raise_for_status()]: raises [ClientResponseError] with the
    status, the reason as message and the request's URL unless [ok]. *)
Definition raise_for_status (r : ClientResponse) : M unit :=
  emit EvRaiseForStatus;;
  if ok r then mret tt
  else raise (ClientResponseError (status r) (reason r) (real_url r)).

(** ** The module *)

(** [_resolve_method] (lines 75-94) *)
Definition _resolve_method (method : RequestMethod) (session : ClientSession)
  : BoundMethod :=
  let request_func :=
    match method with
    | GET => mkBoundMethod session session_get
    | HEAD => mkBoundMethod session session_head
    | POST => mkBoundMethod session session_post
    | PUT => mkBoundMethod session session_put
    | DELETE => mkBoundMethod session session_delete
    | OPTIONS => mkBoundMethod session session_options
    | PATCH => mkBoundMethod session session_patch
    end in
  request_func.

(** [(headers or {}) | {"Content-Type": "application/json"}] (lines 45-47) *)
Definition effective_headers (headers : option ref) : M ref :=
  lhs ← or_empty_dict headers;
  rhs ← new_dict {[ "Content-Type" := "application/json" ]};
  dict_or lhs rhs.

(** The body of [async with ... as response:] in [_request] (lines 63-72) *)
Definition handle_response (response : ClientResponse) : M Result :=
  response_body ←
    (if String.eqb (content_type response) "application/json" then
       j ← json response; mret (RJson j)
     else if String.prefix "text/plain" (content_type response) then
       s ← text response; mret (RText s)
     else
       raise (RuntimeError ("Unsupported response content type: "
                            ++ content_type response)));
  raise_for_status response;;
  mret response_body.

(** [_request] (lines 33-72) *)
Definition _request (method : RequestMethod) (url : string)
    (headers : option ref) (body : ref) (session : ClientSession)
    (dry_run : bool) : M Result :=
  headers ← effective_headers headers;
  let request_func := _resolve_method method session in
  log DEBUG method url headers body;;
  if dry_run then
    log INFO method url headers body;;
    mret (RJson (JDict ∅))
  else
    async_with (send request_func url headers body) (emit EvRelease)
      handle_response.

(** [request] (lines 97-131) *)
Definition request (method : RequestMethod) (url : string)
    (headers : option ref) (body : ref) (timeout : Z)
    (proxy_url : option string) (dry_run : bool) : M Result :=
  session_timeout ←
    ClientTimeout_new None (Some timeout) (Some timeout);
  let optional_args : gmap string Connector := ∅ in
  optional_args ←
    match proxy_url with
    | Some proxy_url =>
        c ← from_url proxy_url;
        mret (<["connector" := c]> optional_args)
    | None => mret optional_args
    end;
  async_with (ClientSession_new session_timeout optional_args)
    (emit EvSessionClose)
    (fun session => _request method url headers body session dry_run).

(** The defaults of [request]'s keyword parameters.  The default of [body]
    is one empty dict made when the module is loaded; a call that leaves
    [body] out passes the reference of that one object. *)
Definition default_headers : option ref := None.
Definition default_timeout : Z := 600.
Definition default_proxy_url : option string := None.
Definition default_dry_run : bool := false.

(** ** Concrete worlds to run the module in *)

Module Sample.

Definition json_200 : ClientResponse :=
  {| content_type := "application/json"; status := 200; reason := "OK";
     real_url := "http://host/json";
     resp_json := Return (JDict {[ "a" := JInt 1 ]});
     resp_text := Return "{'a': 1}" |}.

Definition text_200 : ClientResponse :=
  {| content_type := "text/plain"; status := 200; reason := "OK";
     real_url := "http://host/text";
     resp_json := Raise (LibraryError "ContentTypeError");
     resp_text := Return "ok" |}.

Definition json_404 : ClientResponse :=
  {| content_type := "application/json"; status := 404;
     reason := "Not Found"; real_url := "http://host/missing";
     resp_json := Return (JDict {[ "error" := JStr "no such job" ]});
     resp_text := Return "{'error': 'no such job'}" |}.

Definition xml_404 : ClientResponse :=
  {| content_type := "application/xml"; status := 404;
     reason := "Not Found"; real_url := "http://host/xml";
     resp_json := Raise (LibraryError "ContentTypeError");
     resp_text := Return "<error/>" |}.

(** A server error whose body is announced as JSON and is not. *)
Definition broken_500 : ClientResponse :=
  {| content_type := "application/json"; status := 500;
     reason := "Internal Server Error"; real_url := "http://host/broken";
     resp_json := Raise (LibraryError "JSONDecodeError");
     resp_text := Return "<html>Internal Server Error</html>" |}.

Definition net : Network :=
  fun _ _ url _ _ =>
    if String.eqb url "http://host/json" then Return json_200
    else if String.eqb url "http://host/text" then Return text_200
    else if String.eqb url "http://host/missing" then Return json_404
    else if String.eqb url "http://host/xml" then Return xml_404
    else if String.eqb url "http://host/broken" then Return broken_500
    else Raise (LibraryError "ClientConnectorError").

(** Proxy URLs with one of these schemes parse; [from_url] raises
    [ValueError] on the others. *)
Definition proxies : ProxyErrors :=
  fun url =>
    if String.prefix "socks5://" url || String.prefix "socks4://" url
       || String.prefix "http://" url
    then None
    else Some (LibraryError "ValueError").

Definition caller_headers : gmap string string :=
  {[ "Accept" := "text/plain"; "Content-Type" := "text/xml" ]}.

Definition caller_body : JSONNode := JDict {[ "job" := JStr "build" ]}.

(** The caller holds a header mapping at reference 1 and a body at
    reference 1 of the JSON store. *)
Definition w0 : World :=
  {| dicts := {[ 1%positive := caller_headers ]};
     jsons := {[ 1%positive := caller_body ]};
     network := net;
     proxy_error := proxies;
     trace := [] |}.

End Sample.

(** ** Reasoning about runs *)

(** The mapping a caller passes as [headers], read as [headers or {}]
    reads it: no mapping counts as the empty one. *)
Definition headers_value (w : World) (headers : option ref)
  : option (gmap string string) :=
  match headers with
  | None => Some ∅
  | Some l => dicts w !! l
  end.

Definition forced_content_type : gmap string string :=
  {[ "Content-Type" := "application/json" ]}.

(** [w'] has every object of [w], unchanged, and the same network and
    proxy parser. *)
Definition extends (w w' : World) : Prop :=
  dicts w ⊆ dicts w' ∧ jsons w' = jsons w ∧ network w' = network w ∧
  proxy_error w' = proxy_error w.

(** [ProxyConnector.from_url] takes the proxy URL of the call, if there is
    one. *)
Definition proxy_accepted (w : World) (proxy_url : option string) : Prop :=
  match proxy_url with
  | Some u => proxy_error w u = None
  | None => True
  end.

(** The session [request] opens for a timeout and an optional proxy URL. *)
Definition session_for (timeout : Z) (proxy_url : option string)
  : ClientSession :=
  {| session_timeout :=
       {| total := None; connect := None;
          sock_read := Some timeout; sock_connect := Some timeout |};
     session_connector := ProxyConnector_from_url <$> proxy_url |}.

(** What [request] constructs before it calls [_request]. *)
Definition setup_events (timeout : Z) (proxy_url : option string)
  : list Event :=
  [EvClientTimeout (session_timeout (session_for timeout proxy_url))]
  ++ match proxy_url with
     | Some u => [EvProxyConnector u]
     | None => []
     end
  ++ [EvClientSession (session_for timeout proxy_url)].

(** The [async with ... as response:] statement once the response is
    there: its block, then the release of the response. *)
Definition response_block (r : ClientResponse) : M Result :=
  finally (handle_response r) (emit EvRelease).

(** The block looks at nothing but the response, so running it in a world
    with no objects, no network and no history tells what it does in any
    world. *)
Definition empty_world : World :=
  {| dicts := ∅; jsons := ∅;
     network := fun _ _ _ _ _ => Raise (LibraryError "unreachable");
     proxy_error := fun _ => None;
     trace := [] |}.

Definition response_outcome (r : ClientResponse) : Outcome Result :=
  fst (response_block r empty_world).

Definition response_events (r : ClientResponse) : list Event :=
  trace (snd (response_block r empty_world)).

(** Events that go to the network: sending a request, reading a response
    body, giving the connection back. *)
Definition is_network_event (e : Event) : bool :=
  match e with
  | EvSend _ _ _ _ | EvReadJson | EvReadText | EvRelease => true
  | _ => false
  end.

Definition is_proxy_connector (e : Event) : bool :=
  match e with
  | EvProxyConnector _ => true
  | _ => false
  end.

Definition is_session (e : Event) : bool :=
  match e with
  | EvClientSession _ => true
  | _ => false
  end.

Definition is_send (e : Event) : bool :=
  match e with
  | EvSend _ _ _ _ => true
  | _ => false
  end.

Definition is_release (e : Event) : bool :=
  match e with
  | EvRelease => true
  | _ => false
  end.

Definition is_session_close (e : Event) : bool :=
  match e with
  | EvSessionClose => true
  | _ => false
  end.

Definition is_status_check (e : Event) : bool :=
  match e with
  | EvRaiseForStatus => true
  | _ => false
  end.

(** [n] calls of [request] with the same arguments, one after the other;
    the results, oldest first. *)
Fixpoint repeat_request (n : nat) (method : RequestMethod) (url : string)
    (headers : option ref) (body : ref) (timeout : Z)
    (proxy_url : option string) (dry_run : bool) (w : World)
  : list (Outcome Result) * World :=
  match n with
  | O => ([], w)
  | S n' =>
      let (r, w') :=
        request method url headers body timeout proxy_url dry_run w in
      let (rs, w'') :=
        repeat_request n' method url headers body timeout proxy_url
          dry_run w' in
      (r :: rs, w'')
  end.

(** The world with another network: the servers have moved on. *)
Definition with_network (net : Network) (w : World) : World :=
  {| dicts := dicts w; jsons := jsons w; network := net;
     proxy_error := proxy_error w; trace := trace w |}.

(** One call of [request] per network of the list, with the same arguments,
    one after the other, each against its own network; the results, oldest
    first. *)
Fixpoint request_each (nets : list Network) (method : RequestMethod)
    (url : string) (headers : option ref) (body : ref) (timeout : Z)
    (proxy_url : option string) (dry_run : bool) (w : World)
  : list (Outcome Result) * World :=
  match nets with
  | [] => ([], w)
  | net :: nets' =>
      let (r, w') :=
        request method url headers body timeout proxy_url dry_run
          (with_network net w) in
      let (rs, w'') :=
        request_each nets' method url headers body timeout proxy_url
          dry_run w' in
      (r :: rs, w'')
  end.

(** Every [raise_for_status] in a list of events comes after a body read;
    [read] tells whether a read has been seen already. *)
Fixpoint status_checks_follow_read (read : bool) (evs : list Event) : bool :=
  match evs with
  | [] => true
  | EvReadJson :: evs' | EvReadText :: evs' =>
      status_checks_follow_read true evs'
  | EvRaiseForStatus :: evs' => read && status_checks_follow_read read evs'
  | _ :: evs' => status_checks_follow_read read evs'
  end.

(** A computation that leaves every live object and the network as they
    are, whatever it returns or raises. *)
Definition preserves {A} (c : M A) : Prop :=
  ∀ w, extends w (snd (c w)).

Lemma extends_refl w : extends w w.
Proof. by split. Qed.

Lemma extends_trans w1 w2 w3 : extends w1 w2 → extends w2 w3 → extends w1 w3.
Proof.
  intros (Hd & Hj & Hn & Hp) (Hd' & Hj' & Hn' & Hp'). split; [|split; [|split]].
  - by transitivity (dicts w2).
  - by rewrite Hj'.
  - by rewrite Hn'.
  - by rewrite Hp'.
Qed.

Lemma bind_run {A B} (c : M A) (k : A → M B) w :
  (c ≫= k) w =
  match c w with
  | (Return a, w') => k a w'
  | (Raise e, w') => (Raise e, w')
  end.
Proof. reflexivity. Qed.

Lemma read_dict_run l d w :
  dicts w !! l = Some d → read_dict l w = (Return d, w).
Proof. intros H. unfold read_dict. by rewrite H. Qed.

Lemma read_json_run l j w :
  jsons w !! l = Some j → read_json l w = (Return j, w).
Proof. intros H. unfold read_json. by rewrite H. Qed.

Lemma fresh_dict_None (m : gmap ref (gmap string string)) :
  m !! fresh (dom m) = None.
Proof. apply not_elem_of_dom, is_fresh. Qed.

Lemma new_dict_extends d w : extends w (snd (new_dict d w)).
Proof.
  split; [|done]. cbn. apply insert_subseteq, fresh_dict_None.
Qed.


Lemma new_dict_run d w :
  ∃ l w',
    new_dict d w = (Return l, w') ∧
    dicts w' !! l = Some d ∧ dicts w !! l = None ∧
    extends w w' ∧ trace w' = trace w.
Proof.
  eexists _, _. split; [reflexivity|]. cbn.
  split; [apply lookup_insert_eq|]. split; [apply fresh_dict_None|].
  split; [apply (new_dict_extends d w)|done].
Qed.

Lemma extends_lookup w w' l (d : gmap string string) :
  extends w w' → dicts w !! l = Some d → dicts w' !! l = Some d.
Proof. intros (Hd & _) H. by eapply lookup_weaken. Qed.

Lemma or_empty_dict_run headers d w :
  headers_value w headers = Some d →
  ∃ l w',
    or_empty_dict headers w = (Return l, w') ∧
    dicts w' !! l = Some d ∧ extends w w' ∧ trace w' = trace w.
Proof.
  intros Hd. destruct headers as [l|]; cbn in Hd.
  - unfold or_empty_dict. rewrite bind_run, (read_dict_run _ _ _ Hd).
    case_bool_decide as He.
    + destruct (new_dict_run ∅ w) as (l' & w' & -> & Hl' & _ & Hext & Htr).
      subst d. by exists l', w'.
    + exists l, w. by repeat split.
  - injection Hd as <-. cbn.
    destruct (new_dict_run ∅ w) as (l' & w' & -> & Hl' & _ & Hext & Htr).
    by exists l', w'.
Qed.

Lemma dict_or_run a b da db w :
  dicts w !! a = Some da → dicts w !! b = Some db →
  ∃ l w',
    dict_or a b w = (Return l, w') ∧
    dicts w' !! l = Some (db ∪ da) ∧ dicts w !! l = None ∧
    extends w w' ∧ trace w' = trace w.
Proof.
  intros Ha Hb. unfold dict_or.
  rewrite bind_run, (read_dict_run _ _ _ Ha).
  rewrite bind_run, (read_dict_run _ _ _ Hb).
  apply new_dict_run.
Qed.

Lemma effective_headers_run headers d w :
  headers_value w headers = Some d →
  ∃ l w',
    effective_headers headers w = (Return l, w') ∧
    dicts w' !! l = Some (forced_content_type ∪ d) ∧
    dicts w !! l = None ∧
    extends w w' ∧ trace w' = trace w.
Proof.
  intros Hd. unfold effective_headers.
  destruct (or_empty_dict_run _ _ _ Hd) as (l1 & w1 & E1 & Hl1 & Hx1 & Ht1).
  rewrite bind_run, E1.
  destruct (new_dict_run forced_content_type w1)
    as (l2 & w2 & E2 & Hl2 & Hn2 & Hx2 & Ht2).
  rewrite bind_run. fold forced_content_type. rewrite E2.
  destruct (dict_or_run l1 l2 d forced_content_type w2)
    as (l3 & w3 & E3 & Hl3 & Hn3 & Hx3 & Ht3);
    [by eapply extends_lookup|done|].
  exists l3, w3. split; [done|]. split; [done|]. split.
  - destruct (dicts w !! l3) as [d3|] eqn:E; [|done].
    assert (dicts w2 !! l3 = Some d3) as H
      by (eapply extends_lookup; [|done]; by eapply extends_trans).
    congruence.
  - split; [|congruence].
    eapply extends_trans; [|done]. by eapply extends_trans.
Qed.

Lemma add_events_app evs1 evs2 w :
  add_events evs2 (add_events evs1 w) = add_events (evs1 ++ evs2) w.
Proof. unfold add_events. cbn. by rewrite <- app_assoc. Qed.

Lemma add_events_nil w : add_events [] w = w.
Proof. destruct w. unfold add_events. cbn. by rewrite app_nil_r. Qed.

Lemma extends_add_events evs w w' : extends w w' → extends w (add_events evs w').
Proof. done. Qed.


(** Membership in an explicit list of events. *)
Ltac events := set_unfold; intuition congruence.

Ltac run :=
  cbv beta iota zeta delta
    [mbind M_bind mret M_ret bind ret raise emit await finally async_with
     json text raise_for_status fst snd].


Lemma response_block_run r w :
  response_block r w = (response_outcome r, add_events (response_events r) w).
Proof.
  unfold response_outcome, response_events, response_block, handle_response.
  destruct (String.eqb _ _); [|destruct (String.prefix _ _)]; run.
  - destruct (resp_json r); [destruct (ok r)|]; run; cbn;
      by rewrite !add_events_app.
  - destruct (resp_text r); [destruct (ok r)|]; run; cbn;
      by rewrite !add_events_app.
  - cbn. done.
Qed.

Lemma log_run level m url headers body h j w :
  dicts w !! headers = Some h → jsons w !! body = Some j →
  log level m url headers body w =
  (Return tt, add_events [EvLog level (name m) url h j] w).
Proof.
  intros Hh Hj. unfold log.
  by rewrite bind_run, (read_dict_run _ _ _ Hh),
    bind_run, (read_json_run _ _ _ Hj).
Qed.

Lemma send_run f url headers body h j w :
  dicts w !! headers = Some h → jsons w !! body = Some j →
  send f url headers body w =
  (network w (bm_self f) (bm_func f) url h j,
   add_events [EvSend f url h j] w).
Proof.
  intros Hh Hj. unfold send.
  by rewrite bind_run, (read_dict_run _ _ _ Hh),
    bind_run, (read_json_run _ _ _ Hj).
Qed.

Lemma bm_self_resolve m s : bm_self (_resolve_method m s) = s.
Proof. by destruct m. Qed.

(** [_request] on live arguments, case by case: the outcome and the events
    it adds to the trace. *)
Lemma _request_run m url headers body s dry d j w :
  headers_value w headers = Some d → jsons w !! body = Some j →
  let h := forced_content_type ∪ d in
  let f := _resolve_method m s in
  ∃ o evs w',
    _request m url headers body s dry w = (o, w') ∧
    extends w w' ∧ trace w' = trace w ++ evs ∧
    (o, evs) =
    if dry then
      (Return (RJson (JDict ∅)),
       [EvLog DEBUG (name m) url h j; EvLog INFO (name m) url h j])
    else
      match network w s (bm_func f) url h j with
      | Raise e =>
          (Raise e, [EvLog DEBUG (name m) url h j; EvSend f url h j])
      | Return r =>
          (response_outcome r,
           [EvLog DEBUG (name m) url h j; EvSend f url h j]
           ++ response_events r)
      end.
Proof.
  intros Hd Hj h f.
  destruct (effective_headers_run _ _ _ Hd) as (l & w1 & E & Hl & _ & Hx & Ht).
  assert (jsons w1 !! body = Some j) as Hj1 by (by destruct Hx as (_ & -> & _)).
  unfold _request. rewrite bind_run, E.
  rewrite bind_run, (log_run _ _ _ _ _ _ _ _ Hl Hj1).
  destruct dry.
  - rewrite bind_run, (log_run INFO m url l body h j (add_events _ w1)) by done.
    rewrite add_events_app. eexists _, _, _. split; [reflexivity|].
    split; [done|]. split; [|reflexivity]. cbn. by rewrite Ht.
  - unfold async_with.
    rewrite bind_run, (send_run f url l body h j (add_events _ w1)) by done.
    rewrite add_events_app. cbn [network add_events].
    destruct Hx as (Hxd & Hxj & Hxn & Hxp). rewrite Hxn.
    subst f. rewrite bm_self_resolve.
    destruct (network w s _ url h j) as [r|e].
    + fold (response_block r).
      rewrite response_block_run.
      eexists _, _, _. split; [reflexivity|].
      split; [done|]. split; [|reflexivity]. cbn. by rewrite Ht, <- app_assoc.
    + eexists _, _, _. split; [reflexivity|].
      split; [done|]. split; [|reflexivity]. cbn. by rewrite Ht.
Qed.

Lemma proxy_cases w p :
  proxy_accepted w p ∨ ∃ u e, p = Some u ∧ proxy_error w u = Some e.
Proof.
  destruct p as [u|]; [|by left]. cbn.
  destruct (proxy_error w u) as [e|] eqn:E; [right; by eauto|by left].
Qed.

Lemma request_setup m url headers body t p dry w :
  proxy_accepted w p →
  request m url headers body t p dry w =
  finally (_request m url headers body (session_for t p) dry)
    (emit EvSessionClose) (add_events (setup_events t p) w).
Proof.
  intros Hp.
  unfold request, ClientTimeout_new, ClientSession_new, from_url, async_with.
  destruct p as [u|]; run; cbn [proxy_error add_events];
    [cbn in Hp; rewrite Hp|];
    unfold session_for, setup_events;
    cbn [fmap option_fmap option_map app];
    rewrite ?lookup_insert_eq, ?lookup_empty, !add_events_app; done.
Qed.

(** A proxy URL that [from_url] refuses ends the call before a session is
    opened. *)
Lemma request_proxy_rejected m url headers body t u dry e w :
  proxy_error w u = Some e →
  request m url headers body t (Some u) dry w =
  (Raise e,
   add_events [EvClientTimeout (session_timeout (session_for t (Some u)));
               EvProxyConnector u] w).
Proof.
  intros Hp. unfold request, ClientTimeout_new, from_url. run.
  cbn [proxy_error add_events]. rewrite Hp.
  by rewrite add_events_app.
Qed.

(** [request] on live arguments and a proxy URL that parses, case by
    case. *)
Lemma request_run m url headers body t p dry d j w :
  headers_value w headers = Some d → jsons w !! body = Some j →
  proxy_accepted w p →
  let s := session_for t p in
  let h := forced_content_type ∪ d in
  let f := _resolve_method m s in
  ∃ o evs w',
    request m url headers body t p dry w = (o, w') ∧
    extends w w' ∧ trace w' = trace w ++ evs ∧
    (o, evs) =
    if dry then
      (Return (RJson (JDict ∅)),
       setup_events t p
       ++ [EvLog DEBUG (name m) url h j; EvLog INFO (name m) url h j;
           EvSessionClose])
    else
      match network w s (bm_func f) url h j with
      | Raise e =>
          (Raise e,
           setup_events t p
           ++ [EvLog DEBUG (name m) url h j; EvSend f url h j;
               EvSessionClose])
      | Return r =>
          (response_outcome r,
           setup_events t p
           ++ [EvLog DEBUG (name m) url h j; EvSend f url h j]
           ++ response_events r ++ [EvSessionClose])
      end.
Proof.
  intros Hd Hj Hp s h f. rewrite request_setup by done.
  destruct (_request_run m url headers body s dry d j
              (add_events (setup_events t p) w) Hd Hj)
    as (o & evs & w1 & E & Hx & Ht & Hcase).
  unfold finally. fold s. rewrite E. cbn [emit].
  exists o, (setup_events t p ++ evs ++ [EvSessionClose]), (add_events [EvSessionClose] w1).
  split; [done|]. split; [exact Hx|]. split.
  - cbn [trace add_events]. rewrite Ht. cbn [trace add_events].
    by rewrite <- !app_assoc.
  - cbn [network add_events] in Hcase. fold h f in Hcase.
    destruct dry; [|destruct (network w s _ url h j)];
      injection Hcase as -> ->; by rewrite <- ?app_assoc.
Qed.

(** *** Nothing the module does changes a live object *)

Section Preserves.
Context {A B : Type}.

Lemma preserves_ret (a : A) : preserves (mret a : M A).
Proof. intros w. apply extends_refl. Qed.

Lemma preserves_raise e : preserves (raise e : M A).
Proof. intros w. apply extends_refl. Qed.

Lemma preserves_await (f : World → Outcome A) : preserves (await f).
Proof. intros w. apply extends_refl. Qed.

Lemma preserves_bind (c : M A) (k : A → M B) :
  preserves c → (∀ a, preserves (k a)) → preserves (c ≫= k).
Proof.
  intros Hc Hk w. rewrite bind_run. specialize (Hc w).
  destruct (c w) as [[a|e] w1]; [|done].
  eapply extends_trans; [exact Hc|apply Hk].
Qed.

Lemma preserves_finally (c : M A) (h : M unit) :
  preserves c → preserves h → preserves (finally c h).
Proof.
  intros Hc Hh w. unfold finally. specialize (Hc w).
  destruct (c w) as [r w1]. specialize (Hh w1).
  destruct (h w1) as [[[]|e] w2]; by eapply extends_trans.
Qed.
End Preserves.

Lemma preserves_emit e : preserves (emit e).
Proof. intros w. apply extends_add_events, extends_refl. Qed.

Lemma preserves_new_dict d : preserves (new_dict d).
Proof. intros w. apply new_dict_extends. Qed.

Lemma preserves_read_dict l : preserves (read_dict l).
Proof. intros w. unfold read_dict. destruct (_ !! _); apply extends_refl. Qed.

Lemma preserves_read_json l : preserves (read_json l).
Proof. intros w. unfold read_json. destruct (_ !! _); apply extends_refl. Qed.

Create HintDb preserves.
#[local] Hint Resolve preserves_ret preserves_raise preserves_await
  preserves_emit preserves_new_dict preserves_read_dict preserves_read_json
  : preserves.
#[local] Hint Extern 2 (preserves (_ ≫= _)) =>
  apply preserves_bind; [|intros ?] : preserves.
#[local] Hint Extern 2 (preserves (finally _ _)) =>
  apply preserves_finally : preserves.
#[local] Hint Extern 3 (preserves (if ?b then _ else _)) =>
  destruct b : preserves.
#[local] Hint Extern 3 (preserves (match ?x with _ => _ end)) =>
  destruct x : preserves.

Ltac preserve := auto 20 with preserves.

Lemma preserves_effective_headers headers : preserves (effective_headers headers).
Proof.
  unfold effective_headers, or_empty_dict, dict_or. preserve.
Qed.

Lemma preserves_log level m url headers body :
  preserves (log level m url headers body).
Proof. unfold log. preserve. Qed.

Lemma preserves_handle_response r : preserves (handle_response r).
Proof.
  unfold handle_response, json, text, raise_for_status. preserve.
Qed.

Lemma preserves__request m url headers body s dry :
  preserves (_request m url headers body s dry).
Proof.
  unfold _request, async_with, send.
  pose proof preserves_effective_headers. pose proof preserves_log.
  pose proof preserves_handle_response.
  preserve.
Qed.

Lemma preserves_request m url headers body t p dry :
  preserves (request m url headers body t p dry).
Proof.
  unfold request, async_with, ClientTimeout_new, ClientSession_new, from_url.
  pose proof preserves__request.
  preserve.
Qed.

(** *** What the response block does, by content type *)

Lemma text_plain_not_json ct :
  String.prefix "text/plain" ct = true → String.eqb ct "application/json" = false.
Proof.
  intros H. destruct (String.eqb_spec ct "application/json") as [->|]; [|done].
  discriminate H.
Qed.

Lemma response_json r :
  content_type r = "application/json" →
  (response_outcome r, response_events r) =
  match resp_json r with
  | Return v =>
      (if ok r then Return (RJson v)
       else Raise (ClientResponseError (status r) (reason r) (real_url r)),
       [EvReadJson; EvRaiseForStatus; EvRelease])
  | Raise e => (Raise e, [EvReadJson; EvRelease])
  end.
Proof.
  intros H.
  unfold response_outcome, response_events, response_block, handle_response.
  rewrite H. cbn [String.eqb Ascii.eqb Bool.eqb]. run.
  destruct (resp_json r); [destruct (ok r)|]; reflexivity.
Qed.

Lemma response_text r :
  String.prefix "text/plain" (content_type r) = true →
  (response_outcome r, response_events r) =
  match resp_text r with
  | Return s =>
      (if ok r then Return (RText s)
       else Raise (ClientResponseError (status r) (reason r) (real_url r)),
       [EvReadText; EvRaiseForStatus; EvRelease])
  | Raise e => (Raise e, [EvReadText; EvRelease])
  end.
Proof.
  intros H.
  unfold response_outcome, response_events, response_block, handle_response.
  rewrite (text_plain_not_json _ H), H. run.
  destruct (resp_text r); [destruct (ok r)|]; reflexivity.
Qed.

Lemma response_unsupported r :
  content_type r ≠ "application/json" →
  String.prefix "text/plain" (content_type r) = false →
  (response_outcome r, response_events r) =
  (Raise (RuntimeError
            (String.append "Unsupported response content type: "
               (content_type r))),
   [EvRelease]).
Proof.
  intros Hj Ht.
  unfold response_outcome, response_events, response_block, handle_response.
  apply String.eqb_neq in Hj. rewrite Hj, Ht. reflexivity.
Qed.

Lemma response_events_cases r :
  response_events r ∈
    [[EvReadJson; EvRaiseForStatus; EvRelease]; [EvReadJson; EvRelease];
     [EvReadText; EvRaiseForStatus; EvRelease]; [EvReadText; EvRelease];
     [EvRelease]].
Proof.
  unfold response_events, response_block, handle_response.
  destruct (String.eqb _ _); [|destruct (String.prefix _ _)]; run.
  - destruct (resp_json r); [destruct (ok r)|]; cbn; events.
  - destruct (resp_text r); [destruct (ok r)|]; cbn; events.
  - cbn. events.
Qed.

(** Splitting a run of [request] into its three cases: dry run, send that
    raises, send answered by a response. *)
Ltac request_cases Hcase :=
  cbv zeta in Hcase;
  match type of Hcase with
  | _ = (if ?dry then _ else match ?n with _ => _ end) =>
      destruct dry; [|destruct n as [?r|?e]]
  | _ = match ?n with _ => _ end => destruct n as [?r|?e]
  | _ => idtac
  end;
  injection Hcase as -> ->.

Ltac response_cases r :=
  let H := fresh in
  pose proof (response_events_cases r) as H;
  set_unfold in H;
  destruct H as [-> | [-> | [-> | [-> | [-> | []]]]]].

Lemma forced_lookup (d : gmap string string) :
  ({[ "Content-Type" := "application/json" ]} ∪ d) !! "Content-Type"
  = Some "application/json".
Proof. apply lookup_union_Some_l, lookup_singleton_eq. Qed.

Lemma forced_lookup_ne (d : gmap string string) k :
  k ≠ "Content-Type" →
  ({[ "Content-Type" := "application/json" ]} ∪ d) !! k = d !! k.
Proof. intros Hk. by apply lookup_union_r, lookup_singleton_ne. Qed.

Lemma proxy_accepted_extends w w' p :
  extends w w' → proxy_accepted w p → proxy_accepted w' p.
Proof.
  intros (_ & _ & _ & Hp). destruct p as [u|]; [|done]. cbn. by rewrite Hp.
Qed.

Lemma headers_value_extends w w' headers d :
  extends w w' → headers_value w headers = Some d →
  headers_value w' headers = Some d.
Proof.
  intros Hx. destruct headers as [l|]; [|done]. by apply extends_lookup.
Qed.

(** When reading the body raises, that exception is what the call raises,
    and the status is never looked at. *)
Lemma body_read_failure_propagates m url headers body t p d j r e w :
  headers_value w headers = Some d →
  jsons w !! body = Some j →
  proxy_accepted w p →
  network w (session_for t p)
    (bm_func (_resolve_method m (session_for t p))) url
    ({[ "Content-Type" := "application/json" ]} ∪ d) j = Return r →
  content_type r = "application/json" →
  resp_json r = Raise e →
  ∃ evs w',
    request m url headers body t p false w = (Raise e, w') ∧
    trace w' = trace w ++ evs ∧ (EvRaiseForStatus ∉ evs).
Proof.
  intros Hd Hj Hp Hr Hct He.
  destruct (request_run m url headers body t p false d j w Hd Hj Hp)
    as (o & evs & w' & E & _ & Ht & Hcase).
  cbv zeta in Hcase. unfold forced_content_type in Hcase. rewrite Hr in Hcase.
  pose proof (response_json r Hct) as Hrj. rewrite He in Hrj.
  injection Hrj as Ho Hev. rewrite Ho, Hev in Hcase.
  injection Hcase as -> ->. eexists _, w'.
  split; [done|]. split; [done|].
  unfold setup_events. destruct p; events.
Qed.

(** *** Sample runs *)

Example run_json :
  fst (request GET "http://host/json" (Some 1%positive) 1%positive 600 None
         false Sample.w0)
  = Return (RJson (JDict {[ "a" := JInt 1 ]})).
Proof. reflexivity. Qed.

Example run_text :
  fst (request PATCH "http://host/text" None 1%positive 600 None false
         Sample.w0)
  = Return (RText "ok").
Proof. reflexivity. Qed.

Example run_text_with_parameters :
  String.prefix "text/plain" "text/plain; charset=utf-8" = true ∧
  String.eqb "application/json; charset=utf-8" "application/json" = false ∧
  String.prefix "text/plain" "application/json; charset=utf-8" = false.
Proof. by repeat split. Qed.

Example run_not_found :
  fst (request GET "http://host/missing" None 1%positive 600 None false
         Sample.w0)
  = Raise (ClientResponseError 404 "Not Found" "http://host/missing").
Proof. reflexivity. Qed.

Example run_unsupported :
  fst (request GET "http://host/xml" None 1%positive 600 None false
         Sample.w0)
  = Raise (RuntimeError "Unsupported response content type: application/xml").
Proof. reflexivity. Qed.

Example run_undecodable_body :
  fst (request GET "http://host/broken" None 1%positive 600 None false
         Sample.w0)
  = Raise (LibraryError "JSONDecodeError").
Proof. reflexivity. Qed.

Example run_connection_refused :
  let s := session_for 600 None in
  let h : gmap string string := {[ "Content-Type" := "application/json" ]} in
  request GET "http://nowhere/" None 1%positive 600 None false Sample.w0
  = (Raise (LibraryError "ClientConnectorError"),
     {| dicts := dicts (snd (request GET "http://nowhere/" None 1%positive
                               600 None false Sample.w0));
        jsons := jsons Sample.w0;
        network := Sample.net;
        proxy_error := Sample.proxies;
        trace := [EvClientTimeout (session_timeout s); EvClientSession s;
                  EvLog DEBUG "GET" "http://nowhere/" h Sample.caller_body;
                  EvSend (mkBoundMethod s session_get) "http://nowhere/" h
                    Sample.caller_body;
                  EvSessionClose] |}).
Proof. by vm_compute. Qed.

Example run_dry :
  trace (snd (request POST "http://host/json" None 1%positive 600
                (Some "socks5://proxy:1080") true Sample.w0))
  = let s := session_for 600 (Some "socks5://proxy:1080") in
    let h : gmap string string :=
      {[ "Content-Type" := "application/json" ]} in
    [EvClientTimeout (session_timeout s);
     EvProxyConnector "socks5://proxy:1080";
     EvClientSession s;
     EvLog DEBUG "POST" "http://host/json" h Sample.caller_body;
     EvLog INFO "POST" "http://host/json" h Sample.caller_body;
     EvSessionClose].
Proof. by vm_compute. Qed.

Example run_bad_proxy :
  request GET "http://host/json" None 1%positive 600 (Some "bogus") true
    Sample.w0
  = (Raise (LibraryError "ValueError"),
     add_events [EvClientTimeout (session_timeout (session_for 600 None));
                 EvProxyConnector "bogus"] Sample.w0).
Proof. reflexivity. Qed.

(** The caller's own [Content-Type] loses, the other entries stay. *)
Example run_caller_content_type :
  ({[ "Content-Type" := "application/json" ]} ∪ Sample.caller_headers
   : gmap string string)
  = {[ "Accept" := "text/plain"; "Content-Type" := "application/json" ]}.
Proof. by vm_compute. Qed.

(** ** Properties of the specification *)

(** C1.  A call that is not a dry run and whose request the network answers
    with a response [r] decodes by [r]'s content type (the request gets to
    the network only when the proxy URL, if any, parses).
    - Equal to [application/json]: the body is read with [response.json()]
      (and not with [response.text()]); whatever the call returns is that
      decoded value, and it is returned when the status check passes.
    - Starting with [text/plain]: the same with [response.text()] and the
      raw string.
    - Anything else: the call raises [RuntimeError] with the message
      [Unsupported response content type: ...], and neither reads the body
      nor calls [raise_for_status], whatever the status is. *)
Theorem content_type_dispatch m url headers body t p d j r w :
  headers_value w headers = Some d →
  jsons w !! body = Some j →
  proxy_accepted w p →
  network w (session_for t p)
    (bm_func (_resolve_method m (session_for t p))) url
    ({[ "Content-Type" := "application/json" ]} ∪ d) j = Return r →
  ∃ o evs w',
    request m url headers body t p false w = (o, w') ∧
    trace w' = trace w ++ evs ∧
    (content_type r = "application/json" →
       EvReadJson ∈ evs ∧ (EvReadText ∉ evs) ∧
       (∀ x, o = Return x → ∃ v, resp_json r = Return v ∧ x = RJson v) ∧
       (∀ v, resp_json r = Return v → ok r = true → o = Return (RJson v))) ∧
    (String.prefix "text/plain" (content_type r) = true →
       EvReadText ∈ evs ∧ (EvReadJson ∉ evs) ∧
       (∀ x, o = Return x → ∃ s, resp_text r = Return s ∧ x = RText s) ∧
       (∀ s, resp_text r = Return s → ok r = true → o = Return (RText s))) ∧
    (content_type r ≠ "application/json" →
     String.prefix "text/plain" (content_type r) = false →
       o = Raise (RuntimeError
                    (String.append "Unsupported response content type: "
                       (content_type r))) ∧
       (EvRaiseForStatus ∉ evs) ∧ (EvReadJson ∉ evs) ∧ (EvReadText ∉ evs)).
Proof.
  intros Hd Hj Hp Hr.
  destruct (request_run m url headers body t p false d j w Hd Hj Hp)
    as (o & evs & w' & E & _ & Ht & Hcase).
  cbv zeta in Hcase. unfold forced_content_type in Hcase. rewrite Hr in Hcase.
  exists o, evs, w'. split; [done|]. split; [done|].
  injection Hcase as -> ->.
  split; [|split].
  - intros Hct. pose proof (response_json r Hct) as Hrj.
    destruct (resp_json r) as [v|e]; [destruct (ok r)|]; injection Hrj as -> ->.
    all: unfold setup_events; destruct p.
    all: repeat split; [events|events|intros x Hx|intros v' Hv Hok].
    all: try discriminate; try (inversion Hx; subst; by eauto).
    all: try (inversion Hv; by subst).
  - intros Hct. pose proof (response_text r Hct) as Hrj.
    destruct (resp_text r) as [v|e]; [destruct (ok r)|]; injection Hrj as -> ->.
    all: unfold setup_events; destruct p.
    all: repeat split; [events|events|intros x Hx|intros v' Hv Hok].
    all: try discriminate; try (inversion Hx; subst; by eauto).
    all: try (inversion Hv; by subst).
  - intros Hnj Hnt. pose proof (response_unsupported r Hnj Hnt) as Hrj.
    injection Hrj as -> ->.
    unfold setup_events; destruct p; repeat split; events.
Qed.

Lemma content_type_dispatch_witness :
  ∃ o evs w',
    request GET "http://host/xml" (Some 1%positive) 1%positive 600 None false
      Sample.w0 = (o, w') ∧
    trace w' = trace Sample.w0 ++ evs ∧
    o = Raise (RuntimeError
                 "Unsupported response content type: application/xml") ∧
    (EvRaiseForStatus ∉ evs).
Proof.
  destruct (content_type_dispatch GET "http://host/xml" (Some 1%positive)
              1%positive 600 None Sample.caller_headers Sample.caller_body
              Sample.xml_404 Sample.w0)
    as (o & evs & w' & E & Ht & _ & _ & H);
    [reflexivity|reflexivity|exact I|reflexivity|].
  exists o, evs, w'. destruct H as (Ho & Hs & _); [discriminate|reflexivity|].
  by repeat split.
Defined.

(** The order of decoding and status check.  A call that is not a dry run
    and whose response [r] has a supported content type reads the body,
    and no [raise_for_status] comes before the read.  When the read returns a value, the status check is
    the very next event; with a status of 400 or more the call then raises
    [ClientResponseError] with [r]'s status, reason and URL, and with a
    lower status it returns the value.  With a status of 400 or more the
    call returns nothing, whatever the read did. *)
Theorem status_checked_after_decoding m url headers body t p d j r w :
  headers_value w headers = Some d →
  jsons w !! body = Some j →
  proxy_accepted w p →
  network w (session_for t p)
    (bm_func (_resolve_method m (session_for t p))) url
    ({[ "Content-Type" := "application/json" ]} ∪ d) j = Return r →
  content_type r = "application/json" ∨
  String.prefix "text/plain" (content_type r) = true →
  let h : gmap string string :=
    {[ "Content-Type" := "application/json" ]} ∪ d in
  let f := _resolve_method m (session_for t p) in
  let failure :=
    Raise (ClientResponseError (status r) (reason r) (real_url r)) in
  ∃ o evs w',
    request m url headers body t p false w = (o, w') ∧
    trace w' = trace w ++ evs ∧
    (EvReadJson ∈ evs ∨ EvReadText ∈ evs) ∧
    status_checks_follow_read false evs = true ∧
    (∀ v, content_type r = "application/json" → resp_json r = Return v →
       evs = setup_events t p
             ++ [EvLog DEBUG (name m) url h j; EvSend f url h j;
                 EvReadJson; EvRaiseForStatus; EvRelease; EvSessionClose] ∧
       ((400 ≤ status r)%Z → o = failure) ∧
       ((status r < 400)%Z → o = Return (RJson v))) ∧
    (∀ s, String.prefix "text/plain" (content_type r) = true →
       resp_text r = Return s →
       evs = setup_events t p
             ++ [EvLog DEBUG (name m) url h j; EvSend f url h j;
                 EvReadText; EvRaiseForStatus; EvRelease; EvSessionClose] ∧
       ((400 ≤ status r)%Z → o = failure) ∧
       ((status r < 400)%Z → o = Return (RText s))) ∧
    ((400 ≤ status r)%Z → ∀ x, o ≠ Return x).
Proof.
  intros Hd Hj Hp Hr Hsup h f failure.
  destruct (request_run m url headers body t p false d j w Hd Hj Hp)
    as (o & evs & w' & E & _ & Ht & Hcase).
  cbv zeta in Hcase. unfold forced_content_type in Hcase. rewrite Hr in Hcase.
  fold h f in Hcase.
  exists o, evs, w'. split; [done|]. split; [done|].
  assert (ok r = negb (400 <=? status r)%Z) as Hok
    by (unfold ok; lia).
  destruct Hsup as [Hct|Hct].
  - pose proof (response_json r Hct) as Hrj.
    assert (String.prefix "text/plain" (content_type r) = false) as Hnt
      by (by rewrite Hct).
    destruct (resp_json r) as [v|e]; injection Hrj as Ho He;
      rewrite Ho, He in Hcase; injection Hcase as -> ->.
    + split; [unfold setup_events; destruct p; events|].
      split; [unfold setup_events; by destruct p|].
      split; [|split; [congruence|]].
      * intros v' _ [= <-]. split; [done|]. rewrite Hok.
        split; intros Hs; destruct (Z.leb_spec 400 (status r)); (done || lia).
      * intros Hs x. rewrite Hok.
        destruct (Z.leb_spec 400 (status r)); (done || lia).
    + split; [unfold setup_events; destruct p; events|].
      split; [unfold setup_events; by destruct p|].
      split; [congruence|]. split; [congruence|]. done.
  - pose proof (response_text r Hct) as Hrt.
    assert (content_type r ≠ "application/json") as Hnj
      by (intros Heq; by rewrite Heq in Hct).
    destruct (resp_text r) as [v|e]; injection Hrt as Ho He;
      rewrite Ho, He in Hcase; injection Hcase as -> ->.
    + split; [unfold setup_events; destruct p; events|].
      split; [unfold setup_events; by destruct p|].
      split; [congruence|]. split.
      * intros v' _ [= <-]. split; [done|]. rewrite Hok.
        split; intros Hs; destruct (Z.leb_spec 400 (status r)); (done || lia).
      * intros Hs x. rewrite Hok.
        destruct (Z.leb_spec 400 (status r)); (done || lia).
    + split; [unfold setup_events; destruct p; events|].
      split; [unfold setup_events; by destruct p|].
      split; [congruence|]. split; [congruence|]. done.
Qed.

(** C2.  The status error is lost when the body does not decode.  The
    server answers 500 with content type [application/json] and a body
    that is not JSON.  [response.json()] (line 64) raises before
    [raise_for_status] (line 71) is reached: the call raises the decoding
    error, not the [ClientResponseError] carrying the 500 that the
    docstring promises for a status that is not successful. *)
Theorem status_error_lost_on_undecodable_body :
  content_type Sample.broken_500 = "application/json" ∧
  status Sample.broken_500 = 500 ∧
  network Sample.w0 (session_for 600 None) session_get "http://host/broken"
    {[ "Content-Type" := "application/json" ]} Sample.caller_body
  = Return Sample.broken_500 ∧
  ∃ w',
    request GET "http://host/broken" None 1%positive 600 None false Sample.w0
    = (Raise (LibraryError "JSONDecodeError"), w') ∧
    trace w' =
    (let s := session_for 600 None in
     let h : gmap string string :=
       {[ "Content-Type" := "application/json" ]} in
     [EvClientTimeout (session_timeout s); EvClientSession s;
      EvLog DEBUG "GET" "http://host/broken" h Sample.caller_body;
      EvSend (mkBoundMethod s session_get) "http://host/broken" h
        Sample.caller_body;
      EvReadJson; EvRelease; EvSessionClose]).
Proof.
  split; [reflexivity|]. split; [reflexivity|]. split; [reflexivity|].
  exists (snd (request GET "http://host/broken" None 1%positive 600 None
                 false Sample.w0)).
  split; by vm_compute.
Qed.

(** C3.  On every call the mapping the module works with, [h], is the
    caller's mapping (the empty one when the caller passes none) with the
    entry [Content-Type: application/json] laid over it: [h] maps
    [Content-Type] to [application/json] whatever the caller had under that
    key, and agrees with the caller's mapping on every other key.  [h] is
    what line 45 computes, what every log entry shows, and the headers of
    every request sent.  Unless [from_url] refuses the proxy URL (the call
    then ends before line 45), the debug entry is written, and a call that
    is not a dry run sends a request. *)
Theorem content_type_header_forced m url headers body t p dry d j w :
  headers_value w headers = Some d →
  jsons w !! body = Some j →
  let h : gmap string string :=
    {[ "Content-Type" := "application/json" ]} ∪ d in
  h !! "Content-Type" = Some "application/json" ∧
  (∀ k, k ≠ "Content-Type" → h !! k = d !! k) ∧
  (∃ l w1,
     effective_headers headers w = (Return l, w1) ∧ dicts w1 !! l = Some h) ∧
  ∃ o evs w',
    request m url headers body t p dry w = (o, w') ∧
    trace w' = trace w ++ evs ∧
    (proxy_accepted w p → EvLog DEBUG (name m) url h j ∈ evs) ∧
    (∀ f u h' j', EvSend f u h' j' ∈ evs → h' = h ∧ u = url) ∧
    (∀ lvl n u h' j', EvLog lvl n u h' j' ∈ evs → h' = h) ∧
    (proxy_accepted w p → dry = false → ∃ f, EvSend f url h j ∈ evs).
Proof.
  intros Hd Hj h.
  split; [apply forced_lookup|]. split; [apply forced_lookup_ne|]. split.
  { destruct (effective_headers_run _ _ _ Hd) as (l & w1 & E & Hl & _).
    by exists l, w1. }
  destruct (proxy_cases w p) as [Hp|(u0 & e & -> & Hp)].
  - destruct (request_run m url headers body t p dry d j w Hd Hj Hp)
      as (o & evs & w' & E & _ & Ht & Hcase).
    exists o, evs, w'. split; [done|]. split; [done|].
    unfold forced_content_type in Hcase. fold h in Hcase. clear Hp.
    request_cases Hcase; try response_cases r.
    all: repeat split; try (unfold setup_events; destruct p; events).
    all: intros _ _; exists (_resolve_method m (session_for t p)).
    all: unfold setup_events; destruct p; events.
  - rewrite (request_proxy_rejected _ _ _ _ _ _ _ _ _ Hp).
    eexists _, _, _. split; [reflexivity|]. split; [reflexivity|].
    cbn [proxy_accepted]. repeat split; intros; (congruence || events).
Qed.

Lemma content_type_header_forced_witness :
  ∃ o evs w',
    request GET "http://host/json" (Some 1%positive) 1%positive 600 None
      false Sample.w0 = (o, w') ∧
    trace w' = trace Sample.w0 ++ evs ∧
    ∃ f,
      EvSend f "http://host/json"
        {[ "Accept" := "text/plain"; "Content-Type" := "application/json" ]}
        Sample.caller_body ∈ evs.
Proof.
  destruct (content_type_header_forced GET "http://host/json"
              (Some 1%positive) 1%positive 600 None false
              Sample.caller_headers Sample.caller_body Sample.w0)
    as (_ & _ & _ & o & evs & w' & E & Ht & _ & _ & _ & H);
    [reflexivity|reflexivity|].
  exists o, evs, w'. split; [done|]. split; [done|].
  destruct (H I eq_refl) as [f Hf]. exists f.
  replace ({[ "Accept" := "text/plain"; "Content-Type" := "application/json" ]}
           : gmap string string)
    with ({[ "Content-Type" := "application/json" ]} ∪ Sample.caller_headers
          : gmap string string) by (by vm_compute).
  exact Hf.
Defined.


(** A dry run with a proxy URL that [from_url] refuses does not return the
    empty mapping: it raises what [from_url] raised. *)
Lemma dry_run_no_network_counterexample :
  Sample.proxies "bogus" = Some (LibraryError "ValueError") ∧
  fst (request GET "http://host/json" None 1%positive 600 (Some "bogus") true
         Sample.w0)
  = Raise (LibraryError "ValueError") ∧
  fst (request GET "http://host/json" None 1%positive 600 (Some "bogus") true
         Sample.w0)
  ≠ Return (RJson (JDict ∅)).
Proof. split; [reflexivity|]. split; [reflexivity|discriminate]. Qed.

(** C4.  A dry run asks the network nothing: the events it adds to the
    trace contain no send, no body read and no release of a response.  It
    returns the empty mapping when there is no proxy URL or [from_url]
    takes it; when [from_url] refuses the proxy URL the dry run raises
    what [from_url] raised. *)
Theorem dry_run_no_network m url headers body t p d j w :
  headers_value w headers = Some d →
  jsons w !! body = Some j →
  ∃ o evs w',
    request m url headers body t p true w = (o, w') ∧
    trace w' = trace w ++ evs ∧
    List.filter is_network_event evs = [] ∧
    (∀ f u h' j', EvSend f u h' j' ∉ evs) ∧
    (proxy_accepted w p → o = Return (RJson (JDict ∅))) ∧
    (∀ u e, p = Some u → proxy_error w u = Some e → o = Raise e).
Proof.
  intros Hd Hj.
  destruct (proxy_cases w p) as [Hp|(u0 & e & -> & Hp)].
  - destruct (request_run m url headers body t p true d j w Hd Hj Hp)
      as (o & evs & w' & E & _ & Ht & Hcase).
    request_cases Hcase. eexists _, _, w'. split; [done|]. split; [done|].
    split; [unfold setup_events; by destruct p|].
    split; [intros; unfold setup_events; destruct p; events|].
    split; [done|]. intros u e -> He. cbn in Hp. congruence.
  - rewrite (request_proxy_rejected _ _ _ _ _ _ _ _ _ Hp).
    eexists _, _, _. split; [reflexivity|]. split; [reflexivity|].
    split; [reflexivity|]. split; [intros; events|].
    cbn [proxy_accepted]. split; [congruence|]. intros u e' [= <-]. congruence.
Qed.

Lemma dry_run_no_network_witness :
  ∃ evs w',
    request DELETE "http://host/json" (Some 1%positive) 1%positive 600
      (Some "socks5://proxy:1080") true Sample.w0 =
    (Return (RJson (JDict ∅)), w') ∧
    trace w' = trace Sample.w0 ++ evs ∧
    List.filter is_network_event evs = [].
Proof.
  destruct (dry_run_no_network DELETE "http://host/json" (Some 1%positive)
              1%positive 600 (Some "socks5://proxy:1080")
              Sample.caller_headers Sample.caller_body Sample.w0)
    as (o & evs & w' & E & Ht & Hn & _ & Ho & _); [reflexivity|reflexivity|].
  exists evs, w'. rewrite E, Ho; [done|reflexivity].
Defined.

(** C5.  [_resolve_method] maps each of the seven variants to the send
    operation of the same verb, bound to the session it is given: the
    operation's attribute name is the variant's value and the verb it puts
    on the wire is the variant's name.  Every variant is mapped, distinct
    variants to distinct operations, and every send operation is the image
    of a variant. *)
Theorem resolve_method_table (s : ClientSession) :
  _resolve_method GET s = mkBoundMethod s session_get ∧
  _resolve_method HEAD s = mkBoundMethod s session_head ∧
  _resolve_method POST s = mkBoundMethod s session_post ∧
  _resolve_method PUT s = mkBoundMethod s session_put ∧
  _resolve_method DELETE s = mkBoundMethod s session_delete ∧
  _resolve_method OPTIONS s = mkBoundMethod s session_options ∧
  _resolve_method PATCH s = mkBoundMethod s session_patch ∧
  (∀ m, m ∈ all_methods) ∧
  (∀ m, bm_self (_resolve_method m s) = s ∧
        attr_name (bm_func (_resolve_method m s)) = value m ∧
        http_verb (bm_func (_resolve_method m s)) = name m) ∧
  (∀ m1 m2, _resolve_method m1 s = _resolve_method m2 s → m1 = m2) ∧
  (∀ f, ∃ m, _resolve_method m s = mkBoundMethod s f).
Proof.
  repeat split; try reflexivity.
  - intros m. destruct m; events.
  - by destruct m.
  - by destruct m.
  - by destruct m.
  - intros m1 m2 H. destruct m1, m2; (reflexivity || discriminate H).
  - intros f.
    destruct f; [exists GET|exists HEAD|exists POST|exists PUT
                |exists DELETE|exists OPTIONS|exists PATCH]; reflexivity.
Qed.

Lemma resolve_method_table_witness :
  attr_name (bm_func (_resolve_method PATCH (session_for 600 None))) = "patch" ∧
  http_verb (bm_func (_resolve_method PATCH (session_for 600 None))) = "PATCH".
Proof.
  destruct (resolve_method_table (session_for 600 None))
    as (_ & _ & _ & _ & _ & _ & _ & _ & H & _).
  destruct (H PATCH) as (_ & Ha & Hv). by split.
Defined.

(** C6.  On every call the one [ClientTimeout] built has [sock_connect] and
    [sock_read] set to the [timeout] argument and [total] (and [connect])
    left unset; it is the timeout of every session opened, and so of the
    session every request is sent through.  A session is opened unless
    [from_url] refuses the proxy URL. *)
Theorem timeout_on_connect_and_read m url headers body t p dry d j w :
  headers_value w headers = Some d →
  jsons w !! body = Some j →
  let ct := {| total := None; connect := None;
               sock_read := Some t; sock_connect := Some t |} in
  ∃ o evs w',
    request m url headers body t p dry w = (o, w') ∧
    trace w' = trace w ++ evs ∧
    EvClientTimeout ct ∈ evs ∧
    (∀ c, EvClientTimeout c ∈ evs → c = ct) ∧
    (proxy_accepted w p → ∃ s, EvClientSession s ∈ evs) ∧
    (∀ s, EvClientSession s ∈ evs → session_timeout s = ct) ∧
    (∀ f u h' j', EvSend f u h' j' ∈ evs → session_timeout (bm_self f) = ct).
Proof.
  intros Hd Hj ct.
  destruct (proxy_cases w p) as [Hp|(u0 & e & -> & Hp)].
  - destruct (request_run m url headers body t p dry d j w Hd Hj Hp)
      as (o & evs & w' & E & _ & Ht & Hcase).
    exists o, evs, w'. split; [done|]. split; [done|]. clear Hp.
    request_cases Hcase; try response_cases r.
    all: split; [unfold setup_events; destruct p; events|].
    all: split;
      [intros c Hin;
       assert (c = session_timeout (session_for t p)) as ->
         by (revert Hin; unfold setup_events; destruct p; events);
       reflexivity|].
    all: split;
      [intros _; exists (session_for t p);
       unfold setup_events; destruct p; events|].
    all: split;
      [intros s Hin;
       assert (s = session_for t p) as ->
         by (revert Hin; unfold setup_events; destruct p; events);
       reflexivity|].
    all: intros f u h' j' Hin.
    all: assert (f = _resolve_method m (session_for t p)) as ->
           by (revert Hin; unfold setup_events; destruct p; events).
    all: by rewrite bm_self_resolve.
  - rewrite (request_proxy_rejected _ _ _ _ _ _ _ _ _ Hp). subst ct.
    eexists _, _, _. split; [reflexivity|]. split; [reflexivity|].
    cbn [proxy_accepted session_for session_timeout].
    split; [events|]. split; [intros c Hin; revert Hin; events|].
    split; [congruence|]. split; intros; exfalso; events.
Qed.

Lemma timeout_on_connect_and_read_witness :
  ∃ o evs w',
    request GET "http://host/text" None 1%positive 30 None false Sample.w0
    = (o, w') ∧
    trace w' = trace Sample.w0 ++ evs ∧
    EvClientTimeout {| total := None; connect := None;
                       sock_read := Some 30; sock_connect := Some 30 |} ∈ evs.
Proof.
  destruct (timeout_on_connect_and_read GET "http://host/text" None
              1%positive 30 None false ∅ Sample.caller_body Sample.w0)
    as (o & evs & w' & E & Ht & Hin & _); [reflexivity|reflexivity|].
  by exists o, evs, w'.
Defined.

(** With a proxy URL that [from_url] refuses, no connector is built and no
    session is opened: the call raises. *)
Lemma proxy_connector_once_counterexample :
  Sample.proxies "bogus" = Some (LibraryError "ValueError") ∧
  ∃ w',
    request GET "http://host/json" None 1%positive 600 (Some "bogus") false
      Sample.w0 = (Raise (LibraryError "ValueError"), w') ∧
    List.filter is_session (trace w') = [] ∧
    List.filter is_send (trace w') = [].
Proof.
  split; [reflexivity|].
  exists (snd (request GET "http://host/json" None 1%positive 600
                 (Some "bogus") false Sample.w0)).
  by repeat split.
Qed.

(** C7.  With a proxy URL, a call calls [ProxyConnector.from_url] exactly
    once, on that URL.  When [from_url] returns, the one session the call
    opens has the connector built, and so has the session every request is
    sent through.  When [from_url] raises, the call raises the same and
    opens no session and sends nothing.  Without a proxy URL [from_url] is
    not called and the session has no connector. *)
Theorem proxy_connector_once m url headers body t dry d j w :
  headers_value w headers = Some d →
  jsons w !! body = Some j →
  (∀ u,
     ∃ o evs w',
       request m url headers body t (Some u) dry w = (o, w') ∧
       trace w' = trace w ++ evs ∧
       List.filter is_proxy_connector evs = [EvProxyConnector u] ∧
       (proxy_error w u = None →
          ∃ s, List.filter is_session evs = [EvClientSession s] ∧
               session_connector s = Some (ProxyConnector_from_url u)) ∧
       (∀ e, proxy_error w u = Some e →
          o = Raise e ∧
          List.filter is_session evs = [] ∧ List.filter is_send evs = []) ∧
       (∀ f u' h' j', EvSend f u' h' j' ∈ evs →
          session_connector (bm_self f) = Some (ProxyConnector_from_url u))) ∧
  (∃ o evs w',
     request m url headers body t None dry w = (o, w') ∧
     trace w' = trace w ++ evs ∧
     List.filter is_proxy_connector evs = [] ∧
     (∃ s, List.filter is_session evs = [EvClientSession s] ∧
           session_connector s = None) ∧
     (∀ f u' h' j', EvSend f u' h' j' ∈ evs →
        session_connector (bm_self f) = None)).
Proof.
  intros Hd Hj. split; [intros u|].
  - destruct (proxy_error w u) as [e|] eqn:Hp.
    + rewrite (request_proxy_rejected _ _ _ _ _ _ _ _ _ Hp).
      eexists _, _, _. split; [reflexivity|]. split; [reflexivity|].
      split; [reflexivity|]. split; [congruence|].
      split; [by intros e' [= <-]|]. intros; exfalso; events.
    + destruct (request_run m url headers body t (Some u) dry d j w Hd Hj Hp)
        as (o & evs & w' & E & _ & Ht & Hcase).
      exists o, evs, w'. split; [done|]. split; [done|].
      request_cases Hcase; try response_cases r.
      all: split; [reflexivity|]; split; [by eexists|]; split; [congruence|].
      all: intros f u' h' j' Hin.
      all: assert (f = _resolve_method m (session_for t (Some u))) as ->
             by (revert Hin; unfold setup_events; events).
      all: by rewrite bm_self_resolve.
  - destruct (request_run m url headers body t None dry d j w Hd Hj I)
      as (o & evs & w' & E & _ & Ht & Hcase).
    exists o, evs, w'. split; [done|]. split; [done|].
    request_cases Hcase; try response_cases r.
    all: split; [reflexivity|]; split; [by eexists|].
    all: intros f u' h' j' Hin.
    all: assert (f = _resolve_method m (session_for t None)) as ->
           by (revert Hin; unfold setup_events; events).
    all: by rewrite bm_self_resolve.
Qed.

Lemma proxy_connector_once_witness :
  ∃ o evs w',
    request PUT "http://host/json" (Some 1%positive) 1%positive 600
      (Some "socks5://proxy:1080") false Sample.w0 = (o, w') ∧
    trace w' = trace Sample.w0 ++ evs ∧
    List.filter is_proxy_connector evs
    = [EvProxyConnector "socks5://proxy:1080"].
Proof.
  destruct (proxy_connector_once PUT "http://host/json" (Some 1%positive)
              1%positive 600 false Sample.caller_headers Sample.caller_body
              Sample.w0) as [H _]; [reflexivity|reflexivity|].
  destruct (H "socks5://proxy:1080") as (o & evs & w' & E & Ht & Hf & _).
  by exists o, evs, w'.
Defined.

(** C8.  Any number of dry runs with the same arguments, one after the
    other, each return the empty mapping; afterwards every object that was
    live before (the caller's headers and body among them) is unchanged,
    the network is the same, and the events added to the trace contain no
    send, no body read and no release of a response.  The input is valid:
    the references are live and the proxy URL, if any, is one [from_url]
    takes. *)
Theorem dry_run_idempotent n m url headers body t p d j w :
  headers_value w headers = Some d →
  jsons w !! body = Some j →
  proxy_accepted w p →
  ∃ evs w',
    repeat_request n m url headers body t p true w
    = (replicate n (Return (RJson (JDict ∅))), w') ∧
    dicts w ⊆ dicts w' ∧ jsons w' = jsons w ∧ network w' = network w ∧
    headers_value w' headers = Some d ∧ jsons w' !! body = Some j ∧
    trace w' = trace w ++ evs ∧
    List.filter is_network_event evs = [].
Proof.
  revert w. induction n as [|n IH]; intros w Hd Hj Hp.
  - exists [], w. cbn. by rewrite app_nil_r.
  - destruct (request_run m url headers body t p true d j w Hd Hj Hp)
      as (o & evs1 & w1 & E & Hx & Ht & Hcase).
    request_cases Hcase.
    pose proof (headers_value_extends _ _ _ _ Hx Hd) as Hd1.
    pose proof (proxy_accepted_extends _ _ _ Hx Hp) as Hp1.
    destruct Hx as (Hxd & Hxj & Hxn & _).
    assert (jsons w1 !! body = Some j) as Hj1 by (by rewrite Hxj).
    destruct (IH w1 Hd1 Hj1 Hp1)
      as (evs2 & w2 & E2 & Hd2 & Hj2 & Hn2 & Hhv & Hb & Ht2 & Hf2).
    eexists (_ ++ evs2), w2. cbn [repeat_request]. rewrite E, E2.
    split; [done|]. split; [by transitivity (dicts w1)|].
    split; [congruence|]. split; [congruence|].
    split; [done|]. split; [done|].
    split; [by rewrite Ht2, Ht, <- app_assoc|].
    rewrite List.filter_app, Hf2, app_nil_r.
    unfold setup_events. by destruct p.
Qed.

Lemma dry_run_idempotent_witness :
  ∃ w',
    repeat_request 2 POST "http://host/json" (Some 1%positive) 1%positive 600
      None true Sample.w0
    = ([Return (RJson (JDict ∅)); Return (RJson (JDict ∅))], w') ∧
    dicts w' !! 1%positive = Some Sample.caller_headers ∧
    jsons w' !! 1%positive = Some Sample.caller_body.
Proof.
  destruct (dry_run_idempotent 2 POST "http://host/json" (Some 1%positive)
              1%positive 600 None Sample.caller_headers Sample.caller_body
              Sample.w0)
    as (evs & w' & E & _ & _ & _ & Hh & Hb & _);
    [reflexivity|reflexivity|exact I|].
  by exists w'.
Defined.

(** C9.  Whatever [request] is called with and however it ends, every
    mapping that was live before the call holds the same entries after it,
    and the JSON objects are the same: neither the caller's [headers] nor
    the caller's [body] is changed.  The mapping that line 45 binds to
    [headers] is a new object, not the caller's. *)
Theorem request_leaves_arguments m url headers body t p dry w :
  let w' := snd (request m url headers body t p dry w) in
  dicts w ⊆ dicts w' ∧
  jsons w' = jsons w ∧
  (∀ l d, headers = Some l → dicts w !! l = Some d →
          dicts w' !! l = Some d) ∧
  (∀ j, jsons w !! body = Some j → jsons w' !! body = Some j) ∧
  (∀ l w1, effective_headers headers w = (Return l, w1) →
           dicts w !! l = None ∧ headers ≠ Some l ∧
           dicts w ⊆ dicts w1).
Proof.
  intros w'. destruct (preserves_request m url headers body t p dry w)
    as (Hd & Hj & _). fold w' in Hd, Hj.
  split; [done|]. split; [done|]. split; [|split].
  - intros l d _ Hl. by eapply lookup_weaken.
  - intros j. by rewrite Hj.
  - intros l w1 E.
    destruct (headers_value w headers) as [d|] eqn:Hv.
    + destruct (effective_headers_run _ _ _ Hv)
        as (l' & w1' & E' & _ & Hnew & (Hsub & _) & _).
      rewrite E in E'. injection E' as <- <-.
      split; [done|]. split; [|done].
      intros ->. cbn in Hv. congruence.
    + destruct headers as [l0|]; [|discriminate]. cbn in Hv.
      unfold effective_headers, or_empty_dict, read_dict in E.
      rewrite !bind_run, Hv in E. discriminate.
Qed.

Lemma request_leaves_arguments_witness :
  dicts (snd (request GET "http://host/missing" (Some 1%positive) 1%positive
                600 None false Sample.w0)) !! 1%positive
  = Some Sample.caller_headers ∧
  jsons (snd (request GET "http://host/missing" (Some 1%positive) 1%positive
                600 None false Sample.w0)) !! 1%positive
  = Some Sample.caller_body.
Proof.
  destruct (request_leaves_arguments GET "http://host/missing"
              (Some 1%positive) 1%positive 600 None false Sample.w0)
    as (_ & _ & Hh & Hb & _).
  split; [by apply Hh|by apply Hb].
Defined.

(** A dry run with a proxy URL that [from_url] refuses builds no session:
    it ends, raising, when [from_url] does. *)
Lemma dry_run_still_opens_session_counterexample :
  Sample.proxies "bogus" = Some (LibraryError "ValueError") ∧
  ∃ w',
    request GET "http://host/json" None 1%positive 600 (Some "bogus") true
      Sample.w0 = (Raise (LibraryError "ValueError"), w') ∧
    trace w' =
    [EvClientTimeout {| total := None; connect := None;
                        sock_read := Some 600; sock_connect := Some 600 |};
     EvProxyConnector "bogus"] ∧
    List.filter is_session (trace w') = [].
Proof.
  split; [reflexivity|].
  exists (snd (request GET "http://host/json" None 1%positive 600
                 (Some "bogus") true Sample.w0)).
  by repeat split.
Qed.

(** C10.  A dry run still calls [from_url] when a proxy URL is given, and,
    unless that call raises, still opens the session and closes it;
    between opening and closing it only logs.  The trace is then exactly:
    timeout, connector (with a proxy URL), session, debug entry, info
    entry, session close.  When [from_url] raises, the dry run raises the
    same, and the trace is exactly: timeout, call of [from_url]. *)
Theorem dry_run_still_opens_session m url headers body t p d j w :
  headers_value w headers = Some d →
  jsons w !! body = Some j →
  let ct := {| total := None; connect := None;
               sock_read := Some t; sock_connect := Some t |} in
  let s := {| session_timeout := ct;
              session_connector := ProxyConnector_from_url <$> p |} in
  let h : gmap string string :=
    {[ "Content-Type" := "application/json" ]} ∪ d in
  (proxy_accepted w p →
   ∃ w',
     request m url headers body t p true w = (Return (RJson (JDict ∅)), w') ∧
     trace w' =
     trace w
     ++ [EvClientTimeout ct]
     ++ match p with
        | Some u => [EvProxyConnector u]
        | None => []
        end
     ++ [EvClientSession s;
         EvLog DEBUG (name m) url h j; EvLog INFO (name m) url h j;
         EvSessionClose]) ∧
  (∀ u e, p = Some u → proxy_error w u = Some e →
   ∃ w',
     request m url headers body t p true w = (Raise e, w') ∧
     trace w' = trace w ++ [EvClientTimeout ct; EvProxyConnector u]).
Proof.
  intros Hd Hj ct s h. split.
  - intros Hp.
    destruct (request_run m url headers body t p true d j w Hd Hj Hp)
      as (o & evs & w' & E & _ & Ht & Hcase).
    request_cases Hcase. exists w'. split; [done|].
    rewrite Ht. unfold setup_events. by destruct p.
  - intros u e -> Hp.
    rewrite (request_proxy_rejected _ _ _ _ _ _ _ _ _ Hp).
    by eexists.
Qed.

Lemma dry_run_still_opens_session_witness :
  ∃ w',
    request GET "http://host/json" None 1%positive 600
      (Some "socks5://proxy:1080") true Sample.w0
    = (Return (RJson (JDict ∅)), w') ∧
    EvProxyConnector "socks5://proxy:1080" ∈ trace w' ∧
    EvClientSession
      {| session_timeout :=
           {| total := None; connect := None;
              sock_read := Some 600; sock_connect := Some 600 |};
         session_connector :=
           Some (ProxyConnector_from_url "socks5://proxy:1080") |}
    ∈ trace w'.
Proof.
  destruct (dry_run_still_opens_session GET "http://host/json" None
              1%positive 600 (Some "socks5://proxy:1080") ∅
              Sample.caller_body Sample.w0)
    as [H _]; [reflexivity|reflexivity|].
  destruct (H eq_refl) as (w' & E & Ht).
  exists w'. split; [done|]. rewrite Ht. split; events.
Defined.

(** ** Further properties of the module *)

(** *** The session and the response are scoped *)

(** X1.  A call opens at most one session and closes every session it
    opens.  Unless [from_url] refuses the proxy URL, it opens exactly one
    and closes it once, as the last thing it does, whatever happens in
    between (dry run, send that raises, unsupported content type, body read
    that raises, failing status, success).  When [from_url] refuses the
    proxy URL no session is opened and none is closed. *)
Theorem session_closed_on_every_path m url headers body t p dry d j w :
  headers_value w headers = Some d →
  jsons w !! body = Some j →
  ∃ o evs w',
    request m url headers body t p dry w = (o, w') ∧
    trace w' = trace w ++ evs ∧
    length (List.filter is_session_close evs)
    = length (List.filter is_session evs) ∧
    (length (List.filter is_session evs) ≤ 1)%nat ∧
    (proxy_accepted w p →
       List.filter is_session evs = [EvClientSession (session_for t p)] ∧
       List.filter is_session_close evs = [EvSessionClose] ∧
       last evs = Some EvSessionClose) ∧
    (∀ u e, p = Some u → proxy_error w u = Some e →
       List.filter is_session evs = [] ∧
       List.filter is_session_close evs = []).
Proof.
  intros Hd Hj.
  destruct (proxy_cases w p) as [Hp|(u0 & e & -> & Hp)].
  - destruct (request_run m url headers body t p dry d j w Hd Hj Hp)
      as (o & evs & w' & E & _ & Ht & Hcase).
    exists o, evs, w'. split; [done|]. split; [done|].
    assert (List.filter is_session evs = [EvClientSession (session_for t p)] ∧
            List.filter is_session_close evs = [EvSessionClose] ∧
            last evs = Some EvSessionClose) as (Hs & Hc & Hl).
    { clear Hp. request_cases Hcase; try response_cases r.
      all: unfold setup_events; by destruct p. }
    rewrite Hs, Hc. split; [done|]. split; [done|]. split; [done|].
    intros u e -> He. cbn in Hp. congruence.
  - rewrite (request_proxy_rejected _ _ _ _ _ _ _ _ _ Hp).
    eexists _, _, _. split; [reflexivity|]. split; [reflexivity|].
    cbn [proxy_accepted]. split; [done|]. split; [cbn; lia|].
    split; [congruence|]. done.
Qed.

Lemma session_closed_on_every_path_witness :
  ∃ o evs w',
    request GET "http://nowhere/" None 1%positive 600 None false Sample.w0
    = (o, w') ∧
    trace w' = trace Sample.w0 ++ evs ∧
    last evs = Some EvSessionClose.
Proof.
  destruct (session_closed_on_every_path GET "http://nowhere/" None
              1%positive 600 None false ∅ Sample.caller_body Sample.w0)
    as (o & evs & w' & E & Ht & _ & _ & H & _); [reflexivity|reflexivity|].
  destruct (H I) as (_ & _ & Hl).
  by exists o, evs, w'.
Defined.

(** X2.  When sending raises (the request gets to the send only when the
    proxy URL, if any, parses), the call raises that same exception; nothing
    is read, no status is checked, no response is released, and the session
    is closed.  The trace is exactly: set-up, debug entry, send, session
    close. *)
Theorem send_failure_propagates m url headers body t p d j e w :
  headers_value w headers = Some d →
  jsons w !! body = Some j →
  proxy_accepted w p →
  network w (session_for t p)
    (bm_func (_resolve_method m (session_for t p))) url
    ({[ "Content-Type" := "application/json" ]} ∪ d) j = Raise e →
  let h : gmap string string :=
    {[ "Content-Type" := "application/json" ]} ∪ d in
  let f := _resolve_method m (session_for t p) in
  ∃ w',
    request m url headers body t p false w = (Raise e, w') ∧
    trace w' =
    trace w ++ setup_events t p
    ++ [EvLog DEBUG (name m) url h j; EvSend f url h j; EvSessionClose].
Proof.
  intros Hd Hj Hp Hn h f.
  destruct (request_run m url headers body t p false d j w Hd Hj Hp)
    as (o & evs & w' & E & _ & Ht & Hcase).
  cbv zeta in Hcase. unfold forced_content_type in Hcase. rewrite Hn in Hcase.
  injection Hcase as -> ->. by exists w'.
Qed.

Lemma send_failure_propagates_witness :
  ∃ w',
    request GET "http://nowhere/" None 1%positive 600 None false Sample.w0
    = (Raise (LibraryError "ClientConnectorError"), w').
Proof.
  destruct (send_failure_propagates GET "http://nowhere/" None 1%positive
              600 None ∅ Sample.caller_body
              (LibraryError "ClientConnectorError") Sample.w0)
    as (w' & E & _); [reflexivity|reflexivity|exact I|reflexivity|].
  by exists w'.
Defined.

(** X3.  Once the send has returned a response, the response is released
    exactly once, after everything the call does with it and just before
    the session is closed, whether the call then returns or raises. *)
Theorem response_released_on_every_path m url headers body t p d j r w :
  headers_value w headers = Some d →
  jsons w !! body = Some j →
  proxy_accepted w p →
  network w (session_for t p)
    (bm_func (_resolve_method m (session_for t p))) url
    ({[ "Content-Type" := "application/json" ]} ∪ d) j = Return r →
  ∃ o evs pre w',
    request m url headers body t p false w = (o, w') ∧
    trace w' = trace w ++ evs ∧
    evs = pre ++ [EvRelease; EvSessionClose] ∧
    List.filter is_release pre = [].
Proof.
  intros Hd Hj Hp Hn.
  destruct (request_run m url headers body t p false d j w Hd Hj Hp)
    as (o & evs & w' & E & _ & Ht & Hcase).
  cbv zeta in Hcase. unfold forced_content_type in Hcase. rewrite Hn in Hcase.
  injection Hcase as -> ->.
  assert (∃ pre,
            setup_events t p
            ++ [EvLog DEBUG (name m) url
                  ({[ "Content-Type" := "application/json" ]} ∪ d) j;
                EvSend (_resolve_method m (session_for t p)) url
                  ({[ "Content-Type" := "application/json" ]} ∪ d) j]
            ++ response_events r ++ [EvSessionClose]
            = pre ++ [EvRelease; EvSessionClose] ∧
            List.filter is_release pre = []) as (pre & Hpre & Hf).
  { response_cases r; unfold setup_events; destruct p; cbn [app].
    all: match goal with
         | |- ∃ _, ?l = _ ∧ _ =>
             let n := eval cbv in (length l - 2)%nat in
             exists (take n l); split; reflexivity
         end. }
  by eexists _, _, pre, w'.
Qed.

Lemma response_released_on_every_path_witness :
  ∃ o evs pre w',
    request GET "http://host/xml" None 1%positive 600 None false Sample.w0
    = (o, w') ∧
    trace w' = trace Sample.w0 ++ evs ∧
    evs = pre ++ [EvRelease; EvSessionClose].
Proof.
  destruct (response_released_on_every_path GET "http://host/xml" None
              1%positive 600 None ∅ Sample.caller_body Sample.xml_404
              Sample.w0)
    as (o & evs & pre & w' & E & Ht & Hp & _);
    [reflexivity|reflexivity|exact I|reflexivity|].
  by exists o, evs, pre, w'.
Defined.

(** *** Which failure wins *)

(** X4.  When reading the body raises, the call raises that exception,
    whatever the status of the response is: [raise_for_status] is not
    called, so a 4xx/5xx response whose body cannot be read is not
    reported as [ClientResponseError].  The response is still released and
    the session closed. *)
Theorem read_failure_hides_status m url headers body t p d j r e w :
  headers_value w headers = Some d →
  jsons w !! body = Some j →
  proxy_accepted w p →
  network w (session_for t p)
    (bm_func (_resolve_method m (session_for t p))) url
    ({[ "Content-Type" := "application/json" ]} ∪ d) j = Return r →
  (content_type r = "application/json" ∧ resp_json r = Raise e) ∨
  (String.prefix "text/plain" (content_type r) = true ∧
   resp_text r = Raise e) →
  let h : gmap string string :=
    {[ "Content-Type" := "application/json" ]} ∪ d in
  let f := _resolve_method m (session_for t p) in
  ∃ read w',
    request m url headers body t p false w = (Raise e, w') ∧
    trace w' =
    trace w ++ setup_events t p
    ++ [EvLog DEBUG (name m) url h j; EvSend f url h j;
        read; EvRelease; EvSessionClose] ∧
    read = (if String.eqb (content_type r) "application/json"
            then EvReadJson else EvReadText).
Proof.
  intros Hd Hj Hp Hn Hread h f.
  destruct (request_run m url headers body t p false d j w Hd Hj Hp)
    as (o & evs & w' & E & _ & Ht & Hcase).
  cbv zeta in Hcase. unfold forced_content_type in Hcase. rewrite Hn in Hcase.
  destruct Hread as [[Hct He]|[Hct He]].
  - pose proof (response_json r Hct) as Hr. rewrite He in Hr.
    injection Hr as Ho Hev. rewrite Ho, Hev in Hcase.
    injection Hcase as -> ->. exists EvReadJson, w'.
    split; [done|]. split; [done|]. by rewrite Hct.
  - pose proof (response_text r Hct) as Hr. rewrite He in Hr.
    injection Hr as Ho Hev. rewrite Ho, Hev in Hcase.
    injection Hcase as -> ->. exists EvReadText, w'.
    split; [done|]. split; [done|]. by rewrite (text_plain_not_json _ Hct).
Qed.

Lemma read_failure_hides_status_witness :
  ∃ w',
    request GET "http://host/broken" None 1%positive 600 None false Sample.w0
    = (Raise (LibraryError "JSONDecodeError"), w') ∧
    status Sample.broken_500 = 500.
Proof.
  destruct (read_failure_hides_status GET "http://host/broken" None
              1%positive 600 None ∅ Sample.caller_body Sample.broken_500
              (LibraryError "JSONDecodeError") Sample.w0)
    as (read & w' & E & _);
    [reflexivity|reflexivity|exact I|reflexivity|by left|].
  by exists w'.
Defined.

(** X5.  The status of a response is checked exactly when its body has been
    read and the read returned: never for an unsupported content type,
    never after a read that raised, and at most once. *)
Theorem status_checked_iff_body_read m url headers body t p d j r w :
  headers_value w headers = Some d →
  jsons w !! body = Some j →
  proxy_accepted w p →
  network w (session_for t p)
    (bm_func (_resolve_method m (session_for t p))) url
    ({[ "Content-Type" := "application/json" ]} ∪ d) j = Return r →
  ∃ o evs w',
    request m url headers body t p false w = (o, w') ∧
    trace w' = trace w ++ evs ∧
    (EvRaiseForStatus ∈ evs ↔
       (content_type r = "application/json" ∧ ∃ v, resp_json r = Return v) ∨
       (String.prefix "text/plain" (content_type r) = true ∧
        ∃ s, resp_text r = Return s)) ∧
    (length (List.filter is_status_check evs) ≤ 1)%nat.
Proof.
  intros Hd Hj Hpx Hn.
  destruct (request_run m url headers body t p false d j w Hd Hj Hpx)
    as (o & evs & w' & E & _ & Ht & Hcase).
  cbv zeta in Hcase. unfold forced_content_type in Hcase. rewrite Hn in Hcase.
  exists o, evs, w'. split; [done|]. split; [done|].
  injection Hcase as -> ->. clear Hpx.
  destruct (String.eqb_spec (content_type r) "application/json") as [Hct|Hct].
  - pose proof (response_json r Hct) as Hr.
    assert (String.prefix "text/plain" (content_type r) = false) as Hnt
      by (by rewrite Hct).
    destruct (resp_json r) as [v|e]; injection Hr as _ ->.
    all: unfold setup_events; destruct p; cbn.
    all: split; [|lia].
    all: split; [intros Hin|intros [[_ [v' Hv]]|[Hp _]]].
    all: try congruence; try (left; by eauto); try events.
    all: exfalso; revert Hin; events.
  - destruct (String.prefix "text/plain" (content_type r)) eqn:Hp.
    + pose proof (response_text r Hp) as Hr.
      destruct (resp_text r) as [v|e]; injection Hr as _ ->.
      all: unfold setup_events; destruct p; cbn.
      all: split; [|lia].
      all: split; [intros Hin|intros [[Hj' _]|[_ [v' Hv]]]].
      all: try congruence; try (right; by eauto); try events.
      all: exfalso; revert Hin; events.
    + pose proof (response_unsupported r Hct Hp) as Hr.
      injection Hr as _ ->.
      unfold setup_events; destruct p; cbn.
      all: split; [|lia].
      all: split; [intros Hin|intros [[Hj' _]|[Hp' _]]].
      all: try congruence.
      all: exfalso; revert Hin; events.
Qed.

Lemma status_checked_iff_body_read_witness :
  ∃ o evs w',
    request GET "http://host/broken" None 1%positive 600 None false Sample.w0
    = (o, w') ∧
    trace w' = trace Sample.w0 ++ evs ∧
    (EvRaiseForStatus ∉ evs).
Proof.
  destruct (status_checked_iff_body_read GET "http://host/broken" None
              1%positive 600 None ∅ Sample.caller_body Sample.broken_500
              Sample.w0)
    as (o & evs & w' & E & Ht & Hiff & _);
    [reflexivity|reflexivity|exact I|reflexivity|].
  exists o, evs, w'. split; [done|]. split; [done|].
  intros Hin. apply Hiff in Hin.
  destruct Hin as [[_ [v Hv]]|[Hp _]]; discriminate.
Defined.

(** X6.  A call that is not a dry run returns a value only from a response
    with a status below 400 and a supported content type, and the value is
    that response's body as decoded for its content type. *)
Theorem returned_value_comes_from_ok_response
    m url headers body t p d j x w w' :
  headers_value w headers = Some d →
  jsons w !! body = Some j →
  request m url headers body t p false w = (Return x, w') →
  ∃ r,
    network w (session_for t p)
      (bm_func (_resolve_method m (session_for t p))) url
      ({[ "Content-Type" := "application/json" ]} ∪ d) j = Return r ∧
    (status r < 400)%Z ∧
    ((content_type r = "application/json" ∧
      ∃ v, resp_json r = Return v ∧ x = RJson v) ∨
     (String.prefix "text/plain" (content_type r) = true ∧
      ∃ s, resp_text r = Return s ∧ x = RText s)).
Proof.
  intros Hd Hj Hx.
  destruct (proxy_cases w p) as [Hpx|(u0 & e0 & -> & Hpx)];
    [|by rewrite (request_proxy_rejected _ _ _ _ _ _ _ _ _ Hpx) in Hx].
  destruct (request_run m url headers body t p false d j w Hd Hj Hpx)
    as (o & evs & w1 & E & _ & Ht & Hcase).
  rewrite Hx in E. injection E as <- <-.
  cbv zeta in Hcase. unfold forced_content_type in Hcase.
  destruct (network w _ _ url _ j) as [r|e]; [|discriminate].
  exists r. split; [done|]. injection Hcase as Ho _.
  assert (ok r = true → (status r < 400)%Z) as Hok by (unfold ok; lia).
  destruct (String.eqb_spec (content_type r) "application/json") as [Hct|Hct].
  - pose proof (response_json r Hct) as Hr. rewrite <- Ho in Hr.
    destruct (resp_json r) as [v|e]; [destruct (ok r)|]; try discriminate.
    injection Hr as ->. split; [by apply Hok|]. left. by eauto.
  - destruct (String.prefix "text/plain" (content_type r)) eqn:Hp.
    + pose proof (response_text r Hp) as Hr. rewrite <- Ho in Hr.
      destruct (resp_text r) as [v|e]; [destruct (ok r)|]; try discriminate.
      injection Hr as ->. split; [by apply Hok|]. right. by eauto.
    + pose proof (response_unsupported r Hct Hp) as Hr. rewrite <- Ho in Hr.
      discriminate.
Qed.

Lemma returned_value_comes_from_ok_response_witness :
  ∃ r,
    network Sample.w0 (session_for 600 None) session_get "http://host/json"
      {[ "Content-Type" := "application/json" ]} Sample.caller_body
    = Return r ∧
    (status r < 400)%Z.
Proof.
  destruct (returned_value_comes_from_ok_response GET "http://host/json"
              None 1%positive 600 None ∅ Sample.caller_body
              (RJson (JDict {[ "a" := JInt 1 ]})) Sample.w0
              (snd (request GET "http://host/json" None 1%positive 600 None
                      false Sample.w0)))
    as (r & Hn & Hs & _); [reflexivity|reflexivity|by vm_compute|].
  exists r. split; [|done].
  rewrite <- Hn. reflexivity.
Defined.

(** X7.  Every exception a call that is not a dry run raises is one of
    five: what [from_url] raised on the proxy URL; what the send raised;
    what the body read raised; the module's [RuntimeError] for a content
    type that is neither [application/json] nor starts with [text/plain];
    [ClientResponseError] for a response whose body was read and whose
    status is 400 or more. *)
Theorem raised_exceptions m url headers body t p d j e w w' :
  headers_value w headers = Some d →
  jsons w !! body = Some j →
  request m url headers body t p false w = (Raise e, w') →
  let answer :=
    network w (session_for t p)
      (bm_func (_resolve_method m (session_for t p))) url
      ({[ "Content-Type" := "application/json" ]} ∪ d) j in
  (∃ u, p = Some u ∧ proxy_error w u = Some e) ∨
  proxy_accepted w p ∧
  (answer = Raise e ∨
   ∃ r, answer = Return r ∧
     ((content_type r = "application/json" ∧ resp_json r = Raise e) ∨
      (String.prefix "text/plain" (content_type r) = true ∧
       resp_text r = Raise e) ∨
      (content_type r ≠ "application/json" ∧
       String.prefix "text/plain" (content_type r) = false ∧
       e = RuntimeError
             (String.append "Unsupported response content type: "
                (content_type r))) ∨
      ((400 ≤ status r)%Z ∧
       e = ClientResponseError (status r) (reason r) (real_url r) ∧
       ((content_type r = "application/json" ∧
         ∃ v, resp_json r = Return v) ∨
        (String.prefix "text/plain" (content_type r) = true ∧
         ∃ s, resp_text r = Return s))))).
Proof.
  intros Hd Hj Hx answer.
  destruct (proxy_cases w p) as [Hp|(u0 & e0 & -> & Hp)].
  2: { left. exists u0. split; [done|].
       rewrite (request_proxy_rejected _ _ _ _ _ _ _ _ _ Hp) in Hx.
       congruence. }
  right. split; [done|].
  destruct (request_run m url headers body t p false d j w Hd Hj Hp)
    as (o & evs & w1 & E & _ & Ht & Hcase).
  rewrite Hx in E. injection E as <- <-.
  cbv zeta in Hcase. unfold forced_content_type in Hcase. fold answer in Hcase.
  destruct answer as [r|e']; [right|left; congruence].
  exists r. split; [done|]. injection Hcase as Ho _.
  assert (ok r = false → (400 ≤ status r)%Z) as Hok by (unfold ok; lia).
  destruct (String.eqb_spec (content_type r) "application/json") as [Hct|Hct].
  - pose proof (response_json r Hct) as Hr. rewrite <- Ho in Hr.
    destruct (resp_json r) as [v|e'']; [destruct (ok r)|]; try discriminate.
    + injection Hr as ->. right; right; right.
      split; [by apply Hok|]. split; [done|]. left. by eauto.
    + injection Hr as ->. by left.
  - destruct (String.prefix "text/plain" (content_type r)) eqn:Hpre.
    + pose proof (response_text r Hpre) as Hr. rewrite <- Ho in Hr.
      destruct (resp_text r) as [v|e'']; [destruct (ok r)|]; try discriminate.
      * injection Hr as ->. right; right; right.
        split; [by apply Hok|]. split; [done|]. right. by eauto.
      * injection Hr as ->. right; by left.
    + pose proof (response_unsupported r Hct Hpre) as Hr. rewrite <- Ho in Hr.
      injection Hr as ->. right; right; by left.
Qed.

Lemma raised_exceptions_witness :
  Sample.proxies "bogus" = Some (LibraryError "ValueError").
Proof.
  destruct (raised_exceptions GET "http://host/missing" None 1%positive 600
              (Some "bogus") ∅ Sample.caller_body (LibraryError "ValueError")
              Sample.w0
              (snd (request GET "http://host/missing" None 1%positive 600
                      (Some "bogus") false Sample.w0)))
    as [(u & [= <-] & Hu)|(Hp & _)]; [reflexivity|reflexivity|reflexivity| |].
  - exact Hu.
  - discriminate Hp.
Defined.

(** *** What is sent *)

(** X8.  A call sends at most one request.  A call that is not a dry run,
    with no proxy URL or one [from_url] takes, sends exactly one: with the
    verb of [method], to the caller's [url], through the session the call
    opened, with the caller's body as it is.  A dry run sends none, and
    neither does a call whose proxy URL [from_url] refuses. *)
Theorem exactly_one_request_sent m url headers body t p dry d j w :
  headers_value w headers = Some d →
  jsons w !! body = Some j →
  ∃ o evs w',
    request m url headers body t p dry w = (o, w') ∧
    trace w' = trace w ++ evs ∧
    (length (List.filter is_send evs) ≤ 1)%nat ∧
    (dry = true → List.filter is_send evs = []) ∧
    (∀ u e, p = Some u → proxy_error w u = Some e →
       List.filter is_send evs = []) ∧
    (dry = false → proxy_accepted w p →
       ∃ f h,
         List.filter is_send evs = [EvSend f url h j] ∧
         http_verb (bm_func f) = name m ∧
         bm_self f = session_for t p).
Proof.
  intros Hd Hj.
  destruct (proxy_cases w p) as [Hp|(u0 & e & -> & Hp)].
  - destruct (request_run m url headers body t p dry d j w Hd Hj Hp)
      as (o & evs & w' & E & _ & Ht & Hcase).
    exists o, evs, w'. split; [done|]. split; [done|].
    assert (if dry then List.filter is_send evs = []
            else ∃ f h,
                List.filter is_send evs = [EvSend f url h j] ∧
                http_verb (bm_func f) = name m ∧
                bm_self f = session_for t p) as Hsend.
    { clear Hp. request_cases Hcase; try response_cases r.
      all: unfold setup_events; destruct p; try reflexivity.
      all: eexists _, _; split; [reflexivity|]; by destruct m. }
    destruct dry.
    + rewrite Hsend. split; [cbn; lia|]. split; [done|].
      split; [done|]. discriminate.
    + destruct Hsend as (f & h & Hf & Hv & Hs). rewrite Hf.
      split; [cbn; lia|]. split; [discriminate|]. split.
      * intros u e -> He. cbn in Hp. congruence.
      * intros _ _. by exists f, h.
  - rewrite (request_proxy_rejected _ _ _ _ _ _ _ _ _ Hp).
    eexists _, _, _. split; [reflexivity|]. split; [reflexivity|].
    cbn [proxy_accepted]. split; [cbn; lia|]. split; [done|].
    split; [done|]. congruence.
Qed.

Lemma exactly_one_request_sent_witness :
  ∃ o evs w',
    request DELETE "http://host/json" (Some 1%positive) 1%positive 600 None
      false Sample.w0 = (o, w') ∧
    trace w' = trace Sample.w0 ++ evs ∧
    ∃ f h,
      List.filter is_send evs
      = [EvSend f "http://host/json" h Sample.caller_body] ∧
      http_verb (bm_func f) = "DELETE".
Proof.
  destruct (exactly_one_request_sent DELETE "http://host/json"
              (Some 1%positive) 1%positive 600 None false
              Sample.caller_headers Sample.caller_body Sample.w0)
    as (o & evs & w' & E & Ht & _ & _ & _ & H);
    [reflexivity|reflexivity|].
  destruct (H eq_refl I) as (f & h & Hf & Hv & _).
  exists o, evs, w'. split; [done|]. split; [done|]. by exists f, h.
Defined.

(** *** Headers *)

(** X9.  Passing an empty mapping as [headers] is the same as passing
    none: [headers or {}] takes the [{}] in both cases, so the two calls
    have the same outcome and leave the same world, trace included. *)
Theorem empty_headers_same_as_none m url l body t p dry w :
  dicts w !! l = Some ∅ →
  request m url (Some l) body t p dry w = request m url None body t p dry w.
Proof.
  intros Hl.
  destruct (proxy_cases w p) as [Hp|(u & e & -> & Hp)];
    [|by rewrite !(request_proxy_rejected _ _ _ _ _ _ _ _ _ Hp)].
  rewrite !request_setup by done. unfold finally, _request.
  assert (∀ w1, dicts w1 = dicts w →
            effective_headers (Some l) w1 = effective_headers None w1) as Heq.
  { intros w1 Hw. unfold effective_headers, or_empty_dict.
    rewrite (bind_run (_ ≫= _)), (bind_run (read_dict l)).
    rewrite (read_dict_run l ∅ w1) by (by rewrite Hw).
    by rewrite bool_decide_eq_true_2. }
  rewrite !(bind_run (effective_headers _)), Heq; done.
Qed.

Lemma empty_headers_same_as_none_witness :
  let w := {| dicts := {[ 5%positive := ∅ ]};
              jsons := {[ 1%positive := Sample.caller_body ]};
              network := Sample.net; proxy_error := Sample.proxies;
              trace := [] |} in
  request GET "http://host/json" (Some 5%positive) 1%positive 600 None false w
  = request GET "http://host/json" None 1%positive 600 None false w.
Proof.
  intros w.
  apply (empty_headers_same_as_none GET "http://host/json" 5%positive
           1%positive 600 None false w).
  reflexivity.
Defined.

(** X10.  Merging is idempotent: a caller who passes a mapping that already
    maps [Content-Type] to [application/json] gets effective headers equal
    to the mapping passed, still as a new object. *)
Theorem effective_headers_fixed_point l (d : gmap string string) w :
  dicts w !! l = Some d →
  d !! "Content-Type" = Some "application/json" →
  ∃ l' w',
    effective_headers (Some l) w = (Return l', w') ∧
    dicts w' !! l' = Some d ∧ l' ≠ l ∧ dicts w' !! l = Some d.
Proof.
  intros Hl Hct.
  destruct (effective_headers_run (Some l) d w Hl)
    as (l' & w' & E & Hl' & Hnew & Hx & _).
  exists l', w'. split; [done|]. split; [|split].
  - rewrite Hl'. f_equal. unfold forced_content_type.
    rewrite <- insert_union_singleton_l. by apply insert_id.
  - intros ->. congruence.
  - by eapply extends_lookup.
Qed.

Lemma effective_headers_fixed_point_witness :
  let d : gmap string string :=
    {[ "Accept" := "text/plain"; "Content-Type" := "application/json" ]} in
  let w := {| dicts := {[ 1%positive := d ]}; jsons := ∅;
              network := Sample.net; proxy_error := Sample.proxies;
              trace := [] |} in
  ∃ l' w',
    effective_headers (Some 1%positive) w = (Return l', w') ∧
    dicts w' !! l' = Some d ∧ l' ≠ 1%positive.
Proof.
  intros d w.
  destruct (effective_headers_fixed_point 1%positive d w)
    as (l' & w' & E & Hl' & Hne & _); [reflexivity|reflexivity|].
  by exists l', w'.
Defined.

(** *** [_request] on a session of the caller's *)

(** X11.  [_request] works on the session it is given and leaves the
    session's life to its caller: it builds no timeout, connector or
    session, it never closes the session, and whatever it sends goes
    through the given session. *)
Theorem _request_leaves_session_to_caller m url headers body s dry d j w :
  headers_value w headers = Some d →
  jsons w !! body = Some j →
  ∃ o evs w',
    _request m url headers body s dry w = (o, w') ∧
    trace w' = trace w ++ evs ∧
    List.filter is_session evs = [] ∧
    List.filter is_session_close evs = [] ∧
    List.filter is_proxy_connector evs = [] ∧
    (∀ c, EvClientTimeout c ∉ evs) ∧
    (∀ f u h' j', EvSend f u h' j' ∈ evs → bm_self f = s).
Proof.
  intros Hd Hj.
  destruct (_request_run m url headers body s dry d j w Hd Hj)
    as (o & evs & w' & E & _ & Ht & Hcase).
  exists o, evs, w'. split; [done|]. split; [done|].
  request_cases Hcase; try response_cases r.
  all: repeat split; try reflexivity; try (intros; events).
  all: intros f u h' j' Hin.
  all: assert (f = _resolve_method m s) as -> by (revert Hin; events).
  all: apply bm_self_resolve.
Qed.

Lemma _request_leaves_session_to_caller_witness :
  ∃ o evs w',
    _request GET "http://host/json" None 1%positive (session_for 5 None)
      false Sample.w0 = (o, w') ∧
    trace w' = trace Sample.w0 ++ evs ∧
    List.filter is_session_close evs = [].
Proof.
  destruct (_request_leaves_session_to_caller GET "http://host/json" None
              1%positive (session_for 5 None) false ∅ Sample.caller_body
              Sample.w0)
    as (o & evs & w' & E & Ht & _ & Hc & _); [reflexivity|reflexivity|].
  by exists o, evs, w'.
Defined.

(** *** Content types *)

(** X12.  The two supported media types are matched differently.
    [application/json] must be the whole of [response.content_type]: a
    media type that is longer and starts with it, such as
    [application/json-seq], is unsupported and makes the call raise
    [RuntimeError] without reading the body.  [text/plain] need only be
    the start: a media type that starts with it is read as text. *)
Theorem json_exact_text_prefix m url headers body t p d j r suffix w :
  headers_value w headers = Some d →
  jsons w !! body = Some j →
  proxy_accepted w p →
  network w (session_for t p)
    (bm_func (_resolve_method m (session_for t p))) url
    ({[ "Content-Type" := "application/json" ]} ∪ d) j = Return r →
  ∃ o evs w',
    request m url headers body t p false w = (o, w') ∧
    trace w' = trace w ++ evs ∧
    (content_type r = String.append "application/json" suffix →
     suffix ≠ "" →
       o = Raise (RuntimeError
                    (String.append "Unsupported response content type: "
                       (content_type r))) ∧
       (EvReadJson ∉ evs) ∧ (EvReadText ∉ evs)) ∧
    (content_type r = String.append "text/plain" suffix →
       EvReadText ∈ evs ∧
       ∀ s, resp_text r = Return s → (status r < 400)%Z →
            o = Return (RText s)).
Proof.
  intros Hd Hj Hpx Hn.
  destruct (request_run m url headers body t p false d j w Hd Hj Hpx)
    as (o & evs & w' & E & _ & Ht & Hcase).
  cbv zeta in Hcase. unfold forced_content_type in Hcase. rewrite Hn in Hcase.
  exists o, evs, w'. split; [done|]. split; [done|].
  injection Hcase as -> ->. clear Hpx. split.
  - intros Hct Hs.
    assert (content_type r ≠ "application/json") as Hnj.
    { rewrite Hct. intros Heq. apply Hs.
      cbn in Heq. by repeat injection Heq as Heq. }
    assert (String.prefix "text/plain" (content_type r) = false) as Hnt
      by (by rewrite Hct).
    pose proof (response_unsupported r Hnj Hnt) as Hr.
    injection Hr as -> ->.
    unfold setup_events; destruct p; repeat split; events.
  - intros Hct.
    assert (String.prefix "text/plain" (content_type r) = true) as Hp
      by (rewrite Hct; by destruct suffix).
    pose proof (response_text r Hp) as Hr.
    destruct (resp_text r) as [s|e]; injection Hr as -> ->.
    + split; [unfold setup_events; destruct p; events|].
      intros s' [= <-] Hst. unfold ok.
      by destruct (Z.ltb_spec (status r) 400); [|lia].
    + split; [unfold setup_events; destruct p; events|]. done.
Qed.

Lemma json_exact_text_prefix_witness :
  let r := {| content_type := "application/json-seq";
              status := 200; reason := "OK"; real_url := "http://host/";
              resp_json := Return JNull; resp_text := Return "null" |} in
  let w := {| dicts := ∅; jsons := {[ 1%positive := JNull ]};
              network := fun _ _ _ _ _ => Return r;
              proxy_error := Sample.proxies; trace := [] |} in
  ∃ w',
    request GET "http://host/" None 1%positive 600 None false w
    = (Raise (RuntimeError
                "Unsupported response content type: application/json-seq"),
       w').
Proof.
  intros r w.
  destruct (json_exact_text_prefix GET "http://host/" None 1%positive 600
              None ∅ JNull r "-seq" w)
    as (o & evs & w' & E & _ & H & _);
    [reflexivity|reflexivity|exact I|reflexivity|].
  destruct (H eq_refl) as (Ho & _); [discriminate|].
  exists w'. by rewrite E, Ho.
Defined.

(** *** Several calls *)

Lemma request_session_events m url headers body t p dry d j w :
  headers_value w headers = Some d →
  jsons w !! body = Some j →
  proxy_accepted w p →
  ∃ o evs w',
    request m url headers body t p dry w = (o, w') ∧
    extends w w' ∧ trace w' = trace w ++ evs ∧
    List.filter is_session evs = [EvClientSession (session_for t p)] ∧
    List.filter is_session_close evs = [EvSessionClose] ∧
    length (List.filter is_send evs) = (if dry then 0 else 1)%nat.
Proof.
  intros Hd Hj Hp.
  destruct (request_run m url headers body t p dry d j w Hd Hj Hp)
    as (o & evs & w' & E & Hx & Ht & Hcase).
  exists o, evs, w'. split; [done|]. split; [done|]. split; [done|].
  request_cases Hcase; try response_cases r.
  all: unfold setup_events; by destruct p.
Qed.

(** X13.  Sessions are not kept from one call to the next.  One call per
    network of a list, each against its own network (so the calls may end
    differently: one returns, the next raises), with no proxy URL or one
    [from_url] takes: as many sessions are opened as there are calls, as
    many are closed, and as many requests are sent ([0] for dry runs). *)
Theorem one_session_per_call nets m url headers body t p dry d j w :
  headers_value w headers = Some d →
  jsons w !! body = Some j →
  proxy_accepted w p →
  ∃ rs evs w',
    request_each nets m url headers body t p dry w = (rs, w') ∧
    length rs = length nets ∧
    trace w' = trace w ++ evs ∧
    List.filter is_session evs
    = replicate (length nets) (EvClientSession (session_for t p)) ∧
    List.filter is_session_close evs
    = replicate (length nets) EvSessionClose ∧
    length (List.filter is_send evs)
    = (if dry then 0 else length nets)%nat.
Proof.
  revert w. induction nets as [|net nets IH]; intros w Hd Hj Hp.
  - exists [], [], w. cbn. rewrite app_nil_r. by destruct dry.
  - destruct (request_session_events m url headers body t p dry d j
                (with_network net w) Hd Hj Hp)
      as (o & evs1 & w1 & E & Hx & Ht & Hs & Hc & Hn).
    pose proof (headers_value_extends _ _ _ _ Hx Hd) as Hd1.
    pose proof (proxy_accepted_extends _ _ _ Hx Hp) as Hp1.
    assert (jsons w1 !! body = Some j) as Hj1
      by (by destruct Hx as (_ & -> & _)).
    destruct (IH w1 Hd1 Hj1 Hp1)
      as (rs & evs2 & w2 & E2 & Hlen & Ht2 & Hs2 & Hc2 & Hn2).
    exists (o :: rs), (evs1 ++ evs2), w2.
    cbn [request_each]. rewrite E, E2.
    split; [done|]. split; [cbn; by rewrite Hlen|].
    split; [rewrite Ht2, Ht; cbn; by rewrite <- app_assoc|].
    rewrite !List.filter_app, Hs, Hs2, Hc, Hc2, length_app, Hn, Hn2.
    by destruct dry.
Qed.

Lemma one_session_per_call_witness :
  let down : Network :=
    fun _ _ _ _ _ => Raise (LibraryError "ClientConnectorError") in
  ∃ evs w',
    request_each [Sample.net; down; Sample.net] GET "http://host/json" None
      1%positive 600 None false Sample.w0
    = ([Return (RJson (JDict {[ "a" := JInt 1 ]}));
        Raise (LibraryError "ClientConnectorError");
        Return (RJson (JDict {[ "a" := JInt 1 ]}))], w') ∧
    trace w' = trace Sample.w0 ++ evs ∧
    List.filter is_session_close evs
    = [EvSessionClose; EvSessionClose; EvSessionClose].
Proof.
  intros down.
  destruct (one_session_per_call [Sample.net; down; Sample.net] GET
              "http://host/json" None 1%positive 600 None false ∅
              Sample.caller_body Sample.w0)
    as (rs & evs & w' & E & _ & Ht & _ & Hc & _);
    [reflexivity|reflexivity|exact I|].
  exists evs, w'. split; [|split; [exact Ht|exact Hc]].
  rewrite E. f_equal.
  change rs with (fst (rs, w')). rewrite <- E. by vm_compute.
Defined.
